(** * innocent_script.py: the per-pixel nested-sampling driver of
      bayesian-ngc1333, as a shallow embedding.

    The script is a straight-line program over external collaborators
    (pyspeckit, pyspecnest, pymultinest, astropy, matplotlib, the file
    system, MPI).  The collaborators are gathered in a record [World]; the
    script itself is a computation in a small writer-and-exception monad
    whose log is the sequence of observable calls the script makes.

    Numbers: Python floats are idealised as real numbers ([R]); the float
    values whose finiteness the script tests ([numpy.isfinite]) live in
    [pyfloat], which adds the two infinities and NaN.  Python integers are
    [Z]. *)

From Stdlib Require Import ZArith List Reals Lra Lia String Ascii Bool.
From Stdlib Require Import DecimalString.
From Stdlib Require DecimalZ DecimalPos.
Import ListNotations.

Local Open Scope Z_scope.

(** ** Exceptions *)

(** The exception classes the script names or can meet.  [OSError] stands
    for [OSError] and its subclasses other than [FileNotFoundError], which
    the script names separately ([FileExistsError] is [OSError (Some 17)]);
    the argument is the [errno] attribute. *)
Inductive exn : Type :=
| IndexError
| ValueError
| AttributeError
| TypeError
| NameError
| OSError (errno : option Z)
| FileNotFoundError (errno : option Z)
| SystemExit
| Exception (name : string).

Inductive result (A : Type) : Type :=
| Ok (a : A)
| Raise (e : exn).

Arguments Ok {A} a.
Arguments Raise {A} e.

(** [isinstance(e, OSError)] *)
Definition is_OSError (e : exn) : bool :=
  match e with
  | OSError _ | FileNotFoundError _ => true
  | _ => false
  end.

(** [e.errno] of an [OSError] *)
Definition errno_of (e : exn) : option Z :=
  match e with
  | OSError n | FileNotFoundError n => n
  | _ => None
  end.

(** ** Python list and string primitives used by the script *)

Module Py.

(** [l * n]: repetition; a count below one gives the empty list. *)
Definition mul {A} (l : list A) (n : Z) : list A :=
  List.concat (repeat l (Z.to_nat n)).

(** [l[::-1]] *)
Definition reversed {A} (l : list A) : list A := rev l.

(** [list(np.arange(n))] for an integer [n]. *)
Definition arange (n : Z) : list Z :=
  map Z.of_nat (seq 0 (Z.to_nat n)).

(** [l[i]]: a negative index counts from the end, an index outside the
    list raises [IndexError]. *)
Definition index {A} (l : list A) (i : Z) : result A :=
  let n := Z.of_nat (List.length l) in
  let j := if i <? 0 then i + n else i in
  if (0 <=? j) && (j <? n)
  then match nth_error l (Z.to_nat j) with
       | Some a => Ok a
       | None => Raise IndexError
       end
  else Raise IndexError.

(** [str(z)], which is also what ["{}".format(z)] prints for an int. *)
Definition str (z : Z) : string := NilZero.string_of_int (Z.to_int z).

(** Whitespace that [int] strips, among the ASCII characters. *)
Definition is_space (c : ascii) : bool :=
  let n := nat_of_ascii c in
  ((9 <=? n) && (n <=? 13) || (28 <=? n) && (n <=? 32))%nat.

Definition digit_of (c : ascii) : option Z :=
  let n := nat_of_ascii c in
  if ((48 <=? n) && (n <=? 57))%nat then Some (Z.of_nat (n - 48)) else None.

Fixpoint lstrip (l : list ascii) : list ascii :=
  match l with
  | c :: l' => if is_space c then lstrip l' else l
  | [] => []
  end.

Definition strip (l : list ascii) : list ascii :=
  rev (lstrip (rev (lstrip l))).

(** Decimal digits, single underscores allowed between two digits. *)
Fixpoint digits (acc : Z) (after_digit : bool) (l : list ascii) : option Z :=
  match l with
  | [] => if after_digit then Some acc else None
  | c :: l' =>
      match digit_of c with
      | Some d => digits (10 * acc + d) true l'
      | None =>
          if Ascii.eqb c "_" && after_digit then digits acc false l' else None
      end
  end.

(** [int(s)] for a [str] of ASCII characters, base ten: surrounding
    whitespace, an optional sign, digits.  Any other text raises
    [ValueError]. *)
Definition int (s : string) : result Z :=
  let body :=
    match strip (list_ascii_of_string s) with
    | "+"%char :: l => digits 0 false l
    | "-"%char :: l => option_map Z.opp (digits 0 false l)
    | l => digits 0 false l
    end in
  match body with
  | Some z => Ok z
  | None => Raise ValueError
  end.

Definition starts_with_sep (s : string) : bool :=
  match s with
  | String c _ => Ascii.eqb c "/"
  | EmptyString => false
  end.

Fixpoint ends_with_sep (s : string) : bool :=
  match s with
  | EmptyString => false
  | String c EmptyString => Ascii.eqb c "/"
  | String _ s' => ends_with_sep s'
  end.

(** [os.path.join(a, b)] on a POSIX system. *)
Definition path_join (a b : string) : string :=
  if starts_with_sep b then b
  else if String.eqb a "" || ends_with_sep a then a ++ b
  else a ++ "/" ++ b.

End Py.

(** ** Module-level configuration (lines 33-52) *)

Definition npars : Z := 6.
Definition default_npeaks : Z := 2.
Definition name_id : string := "ngc1333-gas".
Definition n_live_points : Z := 400.
Definition sampling_efficiency : R := 0.8%R.

(** ** Prior bounds (lines 126-139) *)

Section Priors.
Local Open Scope R_scope.

(** A Python two-element list [[low, high]]. *)
Definition interval : Type := R * R.

(** [sig2fwhm = 2*(2*np.log(2))**0.5] *)
Definition sig2fwhm : R := 2 * Rpower (2 * ln 2) 0.5.

(** [min_sigma = 0.07 / sig2fwhm] *)
Definition min_sigma : R := 0.07 / sig2fwhm.

Definition dv_min : R := 0.2.
Definition dv_max : R := 3.0.
Definition dxoff_prior : interval := (dv_min, dv_max).

(** The two literal blocks of lines 134-137, in the order the source
    writes them: kinetic temperature, excitation temperature, column
    density, line width, velocity offset, ortho fraction. *)
Definition separation_block_src : list interval :=
  [(2.7315, 25); (2.7315, 25); (12.0, 15.0);
   (min_sigma, 1); dxoff_prior; (0.05, 2)].

Definition anchored_block_src : list interval :=
  [(2.7315, 25); (2.7315, 25); (12.0, 15.0);
   (min_sigma, 1); (3, 10); (0.05, 1)].

(** [priors_xoff_transformed], for the [npeaks] read from the command
    line. *)
Definition priors_xoff_transformed (npeaks : Z) : list interval :=
  (Py.mul (Py.reversed separation_block_src) (npeaks - 1)
   ++ Py.reversed anchored_block_src)%list.

Definition priors (npeaks : Z) : list interval :=
  priors_xoff_transformed npeaks.

(** Position of a field inside a block of the final list.  The source
    writes the line width fourth and the velocity offset fifth and then
    reverses each block. *)
Definition width_index_src : nat := 3.
Definition xoff_index_src : nat := 4.
Definition reversed_index (i : nat) : nat := (Z.to_nat npars - 1 - i)%nat.

(** The [k]-th six-entry block of a bounds list. *)
Definition block (k : nat) (l : list interval) : list interval :=
  firstn (Z.to_nat npars) (skipn (k * Z.to_nat npars) l).

(** The bounds of field [i] (source order) of the [k]-th block. *)
Definition field (i k : nat) (l : list interval) : option interval :=
  nth_error (block k l) (reversed_index i).

End Priors.

(** ** Values supplied by the collaborators *)

(** A float whose finiteness the script tests. *)
Inductive pyfloat : Type :=
| Finite (r : R)
| PosInf
| NegInf
| NaN.

(** [np.isfinite] *)
Definition isfinite (f : pyfloat) : bool :=
  match f with
  | Finite _ => true
  | _ => false
  end.

(** The object [get_nh3_model] returns, as far as the script reads it. *)
Record Model : Type := {
  ydata : list pyfloat;
  model_npars : Z;
  dof : Z;
  log_likelihood : list R -> Z -> Z -> pyfloat
}.

(** A map of per-pixel values, read as [grid[y, x]]. *)
Definition Grid : Type := Z -> Z -> R.

(** A spectral cube, read as [cube[channel, y, x]]. *)
Definition CubeArray : Type := Z -> Z -> Z -> pyfloat.

(** The object [opencube.make_cube_shh] returns. *)
Record Cubes : Type := {
  cube : CubeArray;
  errorcube : CubeArray
}.

(** Everything outside the script.  A field of type [result _] is a call
    whose exception the script handles or lets through by a stated rule;
    the other calls are taken to return.
    - [get_nh3_model x y priors npeaks] is the model lines 105-142 build
      for the spectrum at pixel [(x, y)];
    - [comm_get_rank] is [mpi4py.MPI.COMM_WORLD.Get_rank()], raising
      [AttributeError] when [mpi4py.MPI] is not loaded;
    - [multinest_run basename] is [pymultinest.run] writing under
      [basename];
    - [global_evidence x y npeaks] is
      [analyzer_xy(x, y, npeaks, ...).get_stats()['global evidence']];
    - [fits_getdata path] is [fits.getdata(path)[0]];
    - [plot_fit_call parinfo] is [sp.specfit.plot_fit], called with the
      parinfo object ([true]) or the bare parameter list ([false]). *)
Record World : Type := {
  argv : list string;
  comm_get_rank : result Z;
  expanduser : string -> string;
  get_nh3_model : Z -> Z -> list interval -> Z -> Model;
  path_exists : string -> bool;
  makedirs : string -> result unit;
  multinest_run : string -> result unit;
  global_evidence : Z -> Z -> Z -> R;
  fits_getdata : string -> result Grid;
  make_cube_shh : Cubes;
  get_zero_evidence : CubeArray -> CubeArray -> bool -> Grid;
  lnZ_xy : list Z -> Z -> Z -> R * R -> list R;
  plot_fit_call : bool -> result unit
}.

(** ** Observable calls *)

Inductive event : Type :=
| LogInfoNpeaksDefault (npeaks : Z)
| LogInfoXYDefault (x y : Z)
| PltRc
| LogErrorNoValidPixels (x y : Z)
| Makedirs (path : string)
| MultinestRun (basename : string) (n_params n_live : Z) (efficiency : R)
| AnalyzerXY (x y npeaks : Z) (output_dir : string)
| LogInfoLnZ (npeaks : Z) (lnZ : R)
| FitsGetdata (path : string)
| MakeCubeShh
| GetZeroEvidence (normalize : bool)
| LnZXY (ks : list Z) (x y : Z) (lnZ0 : R * R)
| LogInfoBayes (n m : Z) (lnK : R)
| Plotter
| ParsXY (x y npeaks : Z)
| PlotFit (parinfo : bool)
| Annotate (n m : Z) (lnK : R)
| PltShow
| Savefig (path : string)
| CornerPlot.

(** ** The script monad: a log of calls and a result or an exception *)

Definition M (A : Type) : Type := list event * result A.

Definition ret {A} (a : A) : M A := ([], Ok a).

Definition bind {A B} (m : M A) (k : A -> M B) : M B :=
  match m with
  | (t, Ok a) => let (t', r) := k a in (t ++ t', r)
  | (t, Raise e) => (t, Raise e)
  end.

Definition emit (e : event) : M unit := ([e], Ok tt).

Definition raise {A} (e : exn) : M A := ([], Raise e).

Definition lift {A} (r : result A) : M A := ([], r).

(** [try: body  except <classes>: handler].  The handler sees the
    exception ([as e]). *)
Definition try_except {A} (body : M A) (catches : exn -> bool)
  (handler : exn -> M A) : M A :=
  match body with
  | (t, Ok a) => (t, Ok a)
  | (t, Raise e) =>
      if catches e then let (t', r) := handler e in (t ++ t', r)
      else (t, Raise e)
  end.

Declare Scope script_scope.
Delimit Scope script_scope with script.
Notation "x <- m ;; k" := (bind m (fun x => k))
  (at level 61, m at next level, right associativity) : script_scope.
Notation "m ;; k" := (bind m (fun _ => k))
  (at level 61, right associativity) : script_scope.

Definition trace {A} (m : M A) : list event := fst m.
Definition outcome {A} (m : M A) : result A := snd m.

(** The exit status of the interpreter: [sys.exit()] without an argument
    and a normal end give 0, an uncaught exception gives 1. *)
Definition exit_status (r : result unit) : Z :=
  match r with
  | Ok _ => 0
  | Raise SystemExit => 0
  | Raise _ => 1
  end.

Local Open Scope string_scope.
Local Open Scope Z_scope.
Local Open Scope script_scope.

(** ** Rank of the process (lines 55-73) *)

Definition mpi_rank (w : World) : result Z := comm_get_rank w.

Definition i_am_root (w : World) : result bool :=
  match mpi_rank w with
  | Ok rank => Ok (if rank =? 0 then true else false)
  | Raise AttributeError => Ok true
  | Raise e => Raise e
  end.

(** ** Command line (lines 75-90) *)

Record Args : Type := {
  npeaks : Z;
  yx : Z * Z;
  plotting : bool
}.

Definition catches_IndexError (e : exn) : bool :=
  match e with
  | IndexError => true
  | _ => false
  end.

Definition parse_npeaks (av : list string) : M Z :=
  try_except
    (s <- lift (Py.index av 1) ;; lift (Py.int s))
    catches_IndexError
    (fun _ => emit (LogInfoNpeaksDefault default_npeaks) ;;
              ret default_npeaks).

Definition parse_yx (av : list string) : M (Z * Z) :=
  try_except
    (s2 <- lift (Py.index av 2) ;;
     y <- lift (Py.int s2) ;;
     s3 <- lift (Py.index av 3) ;;
     x <- lift (Py.int s3) ;;
     ret (y, x))
    catches_IndexError
    (fun _ => let yx := (140, 112) in
              emit (LogInfoXYDefault (snd yx) (fst yx)) ;;
              ret yx).

Definition parse_plotting (av : list string) : M bool :=
  try_except
    (s <- lift (Py.index av 4) ;;
     z <- lift (Py.int s) ;;
     ret (negb (z =? 0)))
    catches_IndexError
    (fun _ => ret false).

Definition parse_args (av : list string) : M Args :=
  n <- parse_npeaks av ;;
  p <- parse_yx av ;;
  b <- parse_plotting av ;;
  ret {| npeaks := n; yx := p; plotting := b |}.

(** ** Plot switches (lines 92-101) *)

Record Flags : Type := {
  plot_fit : bool;
  plot_corner : bool;
  show_fit : bool;
  show_corner : bool
}.

Definition set_flags (plotting : bool) : M Flags :=
  if negb plotting
  then ret {| plot_fit := false; plot_corner := false;
              show_fit := false; show_corner := false |}
  else emit PltRc ;;
       ret {| plot_fit := true; plot_corner := true;
              show_fit := true; show_corner := true |}.

(** ** Model (lines 104-142) *)

Definition pixel_x (a : Args) : Z := snd (yx a).
Definition pixel_y (a : Args) : Z := fst (yx a).

Definition nh3_model (w : World) (a : Args) : Model :=
  get_nh3_model w (pixel_x a) (pixel_y a) (priors (npeaks a)) (npeaks a).

(** ** Fitter registration (lines 107-119) *)

(** [fittype_fmt.format(npeaks)], the name under which the fitter is
    registered. *)
Definition fittype (npeaks : Z) : string :=
  "cold_ammonia_x" ++ Py.str npeaks.

(** Lines 118-119: the parameter names of the fitter after
    [if len(parnames) == npars and npeaks > 1: parnames *= npeaks]. *)
Definition mirror_parnames (parnames : list string) (npeaks : Z)
  : list string :=
  if (Z.of_nat (List.length parnames) =? npars) && (npeaks >? 1)
  then Py.mul parnames npeaks
  else parnames.

(** ** Safeguard (lines 144-153) *)

Definition trial_block : list R := [15; 5; 15; 0.2; 7; 0.5]%R.

Definition no_valid_chans (m : Model) : bool :=
  negb (existsb isfinite (ydata m)).

Definition sanity_check (m : Model) (n : Z) : bool :=
  isfinite (log_likelihood m (Py.mul trial_block n) (model_npars m) (dof m)).

Definition guard_fails (m : Model) (n : Z) : bool :=
  no_valid_chans m || negb (sanity_check m n).

Definition sanity_guard (m : Model) (a : Args) : M unit :=
  if guard_fails m (npeaks a)
  then emit (LogErrorNoValidPixels (pixel_x a) (pixel_y a)) ;;
       raise SystemExit
  else ret tt.

(** ** Output paths (lines 38, 156-159, 168) *)

Definition proj_dir (w : World) : string :=
  expanduser w "~/Projects/ngc1333-gas/".

Definition output_dir (w : World) : string :=
  Py.path_join (proj_dir w) "nested-sampling/".

Definition fig_dir (w : World) : string :=
  Py.path_join (output_dir w) "figs/".

(** [suffix]: the letter x, then [yx[1]], the letter y, then [yx[0]]. *)
Definition suffix (a : Args) : string :=
  "x" ++ Py.str (snd (yx a)) ++ "y" ++ Py.str (fst (yx a)).

Definition chains_dir (w : World) (a : Args) : string :=
  output_dir w ++ "chains/" ++ name_id ++ "_" ++ suffix a.

Definition chains_basename (w : World) (a : Args) : string :=
  chains_dir w a ++ "/" ++ Py.str (npeaks a) ++ "-".

(** ** Directory creation (lines 160-166) *)

(** The [except OSError as e] clause around [os.makedirs]. *)
Definition handle_makedirs (r : result unit) : result unit :=
  match r with
  | Ok u => Ok u
  | Raise e =>
      if is_OSError e
      then match errno_of e with
           | Some n => if negb (n =? 17) then Raise e else Ok tt
           | None => Raise e
           end
      else Raise e
  end.

Definition create_chains_dir (w : World) (path : string) : M unit :=
  if negb (path_exists w path)
  then emit (Makedirs path) ;; lift (handle_makedirs (makedirs w path))
  else ret tt.

(** ** Sampler call (lines 171-175) *)

Definition run_multinest (w : World) (m : Model) (basename : string)
  : M unit :=
  emit (MultinestRun basename (model_npars m) n_live_points
          sampling_efficiency) ;;
  lift (multinest_run w basename).

(** ** Evidence report (lines 179-201) *)

Definition baseline_file : string := "nested-sampling/ngc1333-Zs.fits".

(** [except (FileNotFoundError, OSError)] *)
Definition catches_missing_file (e : exn) : bool :=
  match e with
  | FileNotFoundError _ | OSError _ => true
  | _ => false
  end.

(** Lines 188-193: the cached grid, or the grid recomputed from the cube
    and its error cube. *)
Definition read_baseline (w : World) : M Grid :=
  try_except
    (emit (FitsGetdata baseline_file) ;; lift (fits_getdata w baseline_file))
    catches_missing_file
    (fun _ =>
       emit MakeCubeShh ;;
       let cubes := make_cube_shh w in
       emit (GetZeroEvidence false) ;;
       ret (get_zero_evidence w (cube cubes) (errorcube cubes) false)).

(** Lines 198-201 and again lines 219-225: the two differences of
    log-evidence, handed to [log.info] or to [plt.annotate]. *)
Definition bayes_factors (Zs : list R) (n : Z)
  (report : Z -> Z -> R -> event) : M unit :=
  zn <- lift (Py.index Zs n) ;;
  zm <- lift (Py.index Zs (n - 1)) ;;
  emit (report n (n - 1) (zn - zm)%R) ;;
  if n >? 1
  then zn' <- lift (Py.index Zs n) ;;
       z0 <- lift (Py.index Zs 0) ;;
       emit (report n 0 (zn' - z0)%R)
  else ret tt.

(** The names the first block binds for the later ones ([a] and [Zs]);
    [None] when the block did not run. *)
Definition evidence_block (w : World) (a : Args) (fl : Flags)
  : M (option (list R)) :=
  root <- lift (i_am_root w) ;;
  if root && plot_fit fl
  then
    emit (AnalyzerXY (pixel_x a) (pixel_y a) (npeaks a) (output_dir w)) ;;
    let a_lnZ := global_evidence w (pixel_x a) (pixel_y a) (npeaks a) in
    emit (LogInfoLnZ (npeaks a) a_lnZ) ;;
    lnZ0 <- read_baseline w ;;
    let ks := Py.arange (npeaks a + 1) in
    let lnZ0_xy := (lnZ0 (pixel_y a) (pixel_x a), 0%R) in
    emit (LnZXY ks (pixel_x a) (pixel_y a) lnZ0_xy) ;;
    let Zs := lnZ_xy w ks (pixel_x a) (pixel_y a) lnZ0_xy in
    bayes_factors Zs (npeaks a) LogInfoBayes ;;
    ret (Some Zs)
  else ret None.

(** The list [Zs] of line 195, for a given baseline grid. *)
Definition Zs_of (w : World) (a : Args) (g : Grid) : list R :=
  lnZ_xy w (Py.arange (npeaks a + 1)) (pixel_x a) (pixel_y a)
    (g (pixel_y a) (pixel_x a), 0%R).

(** ** Fit figure (lines 203-230) *)

Definition catches_TypeError (e : exn) : bool :=
  match e with
  | TypeError => true
  | _ => false
  end.

Definition fit_fig_name (a : Args) : string :=
  name_id ++ "-fit-" ++ suffix a ++ "-x" ++ Py.str (npeaks a).

Definition read_name {A} (v : option A) : M A :=
  match v with
  | Some x => ret x
  | None => raise NameError
  end.

Definition fit_block (w : World) (a : Args) (fl : Flags)
  (bound : option (list R)) : M unit :=
  if plot_fit fl
  then
    root <- lift (i_am_root w) ;;
    if (root : bool)
    then
      emit Plotter ;;
      emit (ParsXY (pixel_x a) (pixel_y a) (npeaks a)) ;;
      try_except
        (emit (PlotFit true) ;; lift (plot_fit_call w true))
        catches_TypeError
        (fun _ => emit (PlotFit false) ;; lift (plot_fit_call w false)) ;;
      Zs <- read_name bound ;;
      bayes_factors Zs (npeaks a) Annotate ;;
      (if show_fit fl then emit PltShow else ret tt) ;;
      emit (Savefig (Py.path_join (fig_dir w) (fit_fig_name a ++ ".pdf")))
    else ret tt
  else ret tt.

(** ** Corner figure (lines 232-248) *)

Definition corner_fig_name (a : Args) : string :=
  name_id ++ "-corner-" ++ suffix a ++ "-x" ++ Py.str (npeaks a).

Definition corner_block (w : World) (a : Args) (fl : Flags)
  (bound : option (list R)) : M unit :=
  if plot_corner fl
  then
    root <- lift (i_am_root w) ;;
    if (root : bool)
    then
      emit (ParsXY (pixel_x a) (pixel_y a) (npeaks a)) ;;
      _ <- read_name bound ;;
      emit CornerPlot ;;
      emit (Savefig (fig_dir w ++ corner_fig_name a ++ ".pdf")) ;;
      if show_corner fl then emit PltShow else ret tt
    else ret tt
  else ret tt.

(** ** The script, top to bottom *)

Definition post_sampling (w : World) (a : Args) (fl : Flags) : M unit :=
  bound <- evidence_block w a fl ;;
  fit_block w a fl bound ;;
  corner_block w a fl bound.

Definition sampling (w : World) (a : Args) (fl : Flags) : M unit :=
  create_chains_dir w (chains_dir w a) ;;
  run_multinest w (nh3_model w a) (chains_basename w a) ;;
  post_sampling w a fl.

Definition pipeline (w : World) (a : Args) : M unit :=
  fl <- set_flags (plotting a) ;;
  sanity_guard (nh3_model w a) a ;;
  sampling w a fl.

Definition script (w : World) : M unit :=
  a <- parse_args (argv w) ;;
  pipeline w a.

(** ** Two processes creating the same directory

    Lines 160-166 run by two processes that share one file system.  The
    file system is the list of directories that exist; [os.path.exists]
    and [os.makedirs] are each one atomic step on it, and [os.makedirs]
    on an existing path raises [FileExistsError] (errno 17). *)

Definition FileSystem : Type := list string.

Definition fs_exists (fs : FileSystem) (path : string) : bool :=
  existsb (String.eqb path) fs.

Definition fs_makedirs (fs : FileSystem) (path : string)
  : FileSystem * result unit :=
  if fs_exists fs path
  then (fs, Raise (OSError (Some 17)))
  else (path :: fs, Ok tt).

(** Where a process stands inside lines 160-166. *)
Inductive pc : Type :=
| AtExists
| AtMakedirs
| Past (r : result unit).

Definition proc_step (path : string) (fs : FileSystem) (c : pc)
  : FileSystem * pc :=
  match c with
  | AtExists =>
      if negb (fs_exists fs path) then (fs, AtMakedirs) else (fs, Past (Ok tt))
  | AtMakedirs =>
      let (fs', r) := fs_makedirs fs path in (fs', Past (handle_makedirs r))
  | Past r => (fs, Past r)
  end.

Record System : Type := {
  files : FileSystem;
  first : pc;
  second : pc
}.

(** One step of the process the scheduler picks ([false]: the first). *)
Definition sys_step (path : string) (s : System) (who : bool) : System :=
  if who
  then let (fs', c) := proc_step path (files s) (second s) in
       {| files := fs'; first := first s; second := c |}
  else let (fs', c) := proc_step path (files s) (first s) in
       {| files := fs'; first := c; second := second s |}.

Definition sys_run (path : string) (s : System) (schedule : list bool)
  : System :=
  fold_left (sys_step path) schedule s.

Definition sys_init (fs : FileSystem) : System :=
  {| files := fs; first := AtExists; second := AtExists |}.

Definition turns (who : bool) (schedule : list bool) : nat :=
  count_occ bool_dec schedule who.

Definition creations (path : string) (before after : FileSystem) : nat :=
  (count_occ string_dec after path - count_occ string_dec before path)%nat.

Definition past_ok (c : pc) : bool :=
  match c with
  | Past (Ok _) => true
  | _ => false
  end.

(** How far a process is through lines 160-166. *)
Definition progress (c : pc) : nat :=
  match c with
  | AtExists => 0
  | AtMakedirs => 1
  | Past _ => 2
  end.

(** What every state the two processes can reach satisfies: the path is
    there at most once, and a process that is through has met no error
    and leaves the path in place. *)
Definition settled (path : string) (s : System) : Prop :=
  count_occ string_dec (files s) path
  = (if fs_exists (files s) path then 1 else 0)%nat
  /\ (forall r, first s = Past r ->
        r = Ok tt /\ fs_exists (files s) path = true)
  /\ (forall r, second s = Past r ->
        r = Ok tt /\ fs_exists (files s) path = true).

(** The world one process sees when it runs lines 160-166 alone on the
    file system [fs]. *)
Definition world_on (w : World) (fs : FileSystem) : World :=
  {| argv := argv w;
     comm_get_rank := comm_get_rank w;
     expanduser := expanduser w;
     get_nh3_model := get_nh3_model w;
     path_exists := fs_exists fs;
     makedirs := fun p => snd (fs_makedirs fs p);
     multinest_run := multinest_run w;
     global_evidence := global_evidence w;
     fits_getdata := fits_getdata w;
     make_cube_shh := make_cube_shh w;
     get_zero_evidence := get_zero_evidence w;
     lnZ_xy := lnZ_xy w;
     plot_fit_call := plot_fit_call w |}.

(** The switches lines 92-98 set, both branches at once. *)
Definition flags_of (plotting : bool) : Flags :=
  {| plot_fit := plotting; plot_corner := plotting;
     show_fit := plotting; show_corner := plotting |}.

(** The sampler call of lines 171-175, as it appears in the log. *)
Definition sampler_call (w : World) (a : Args) : event :=
  MultinestRun (chains_basename w a) (model_npars (nh3_model w a))
    n_live_points sampling_efficiency.

(** The characters [str] prints for an integer: the sign and the ten
    digits. *)
Definition printable (c : ascii) : Prop :=
  c = "-"%char \/ exists d, Py.digit_of c = Some d.

(** ** Kinds of observable calls *)

(** Calls by which the script itself changes the file system. *)
Definition mutates_files (e : event) : bool :=
  match e with
  | Makedirs _ | Savefig _ => true
  | _ => false
  end.

(** Calls that compute the zero-component evidence. *)
Definition computes_baseline (e : event) : bool :=
  match e with
  | MakeCubeShh | GetZeroEvidence _ => true
  | _ => false
  end.

(** Calls that draw, annotate, show or export a figure. *)
Definition plots (e : event) : bool :=
  match e with
  | Plotter | PlotFit _ | Annotate _ _ _ | PltShow | Savefig _
  | CornerPlot => true
  | _ => false
  end.

Definition coordinator_only (e : event) : bool :=
  mutates_files e || computes_baseline e || plots e.

(** Calls of lines 179-248, everything after the sampler call. *)
Definition after_sampler (e : event) : bool :=
  match e with
  | AnalyzerXY _ _ _ _ | LogInfoLnZ _ _ | FitsGetdata _ | MakeCubeShh
  | GetZeroEvidence _ | LnZXY _ _ _ _ | LogInfoBayes _ _ _ | Plotter
  | ParsXY _ _ _ | PlotFit _ | Annotate _ _ _ | PltShow | Savefig _
  | CornerPlot => true
  | _ => false
  end.

Definition is_sampler_call (e : event) : bool :=
  match e with
  | MultinestRun _ _ _ _ => true
  | _ => false
  end.

(** ** A concrete world, for running the script *)

Module Demo.

Definition model (data : list pyfloat) (lnL : pyfloat) (n : Z) : Model :=
  {| ydata := data;
     model_npars := npars * n;
     dof := 100;
     log_likelihood := fun _ _ _ => lnL |}.

Definition flat_cube : CubeArray := fun _ _ _ => Finite 0.

(** Log-evidence of the models with 0, 1, 2, ... components. *)
Definition evidences : list R := [-100; -80; -85; -90]%R.

Definition world (av : list string) (rank : result Z)
  (data : list pyfloat) (lnL : pyfloat)
  (present : bool) (mk run : result unit) (fits : result Grid) : World :=
  {| argv := av;
     comm_get_rank := rank;
     expanduser := fun _ => "/home/user/Projects/ngc1333-gas/";
     get_nh3_model := fun _ _ _ n => model data lnL n;
     path_exists := fun _ => present;
     makedirs := fun _ => mk;
     multinest_run := fun _ => run;
     global_evidence := fun _ _ n => nth (Z.to_nat n) evidences 0%R;
     fits_getdata := fun _ => fits;
     make_cube_shh := {| cube := flat_cube; errorcube := flat_cube |};
     get_zero_evidence := fun _ _ _ _ _ => (-100)%R;
     lnZ_xy := fun ks _ _ lnZ0 =>
                 map (fun k => if k =? 0 then fst lnZ0
                               else nth (Z.to_nat k) evidences 0%R) ks;
     plot_fit_call := fun _ => Ok tt |}.

Definition good_data : list pyfloat := [NaN; Finite 1; Finite 2].

Definition grid : Grid := fun _ _ => (-100)%R.

Definition argv_default : list string := ["innocent_script.py"].

Definition argv_plot : list string :=
  ["innocent_script.py"; "2"; "140"; "112"; "1"].

(** A pixel without a finite channel. *)
Definition dark_pixel : World :=
  world argv_default (Ok 0) [NaN; PosInf] (Finite 0)
    false (Ok tt) (Ok tt) (Ok grid).

(** A process of rank 1 that finds no output directory. *)
Definition worker : World :=
  world argv_default (Ok 1) good_data (Finite 0)
    false (Ok tt) (Ok tt) (Ok grid).

(** A run whose directory cannot be created (errno 13). *)
Definition denied : World :=
  world argv_default (Ok 0) good_data (Finite 0)
    false (Raise (OSError (Some 13))) (Ok tt) (Ok grid).

(** A run without MPI whose sampler raises. *)
Definition sampler_crash : World :=
  world argv_default (Raise AttributeError) good_data (Finite 0)
    true (Ok tt) (Raise (Exception "RuntimeError")) (Ok grid).

(** The coordinator of a plotting run, with a cached baseline. *)
Definition coordinator : World :=
  world argv_plot (Ok 0) good_data (Finite 0)
    true (Ok tt) (Ok tt) (Ok grid).

(** A plotting run without MPI and without a cached baseline. *)
Definition no_cache : World :=
  world argv_plot (Raise AttributeError) good_data (Finite 0)
    true (Ok tt) (Ok tt) (Raise (FileNotFoundError (Some 2))).

(** The coordinator of a plotting run whose [plot_fit] refuses the
    parinfo object with a [TypeError] and accepts the bare list. *)
Definition retry : World :=
  {| argv := argv coordinator;
     comm_get_rank := comm_get_rank coordinator;
     expanduser := expanduser coordinator;
     get_nh3_model := get_nh3_model coordinator;
     path_exists := path_exists coordinator;
     makedirs := makedirs coordinator;
     multinest_run := multinest_run coordinator;
     global_evidence := global_evidence coordinator;
     fits_getdata := fits_getdata coordinator;
     make_cube_shh := make_cube_shh coordinator;
     get_zero_evidence := get_zero_evidence coordinator;
     lnZ_xy := lnZ_xy coordinator;
     plot_fit_call := fun parinfo : bool =>
                        if parinfo then Raise TypeError else Ok tt |}.

(** A batch run (no plotting) for three components. *)
Definition batch : World :=
  world ["innocent_script.py"; "3"; "140"; "112"] (Ok 0) good_data
    (Finite 0) true (Ok tt) (Ok tt) (Ok grid).

End Demo.

(** * Properties *)

(** ** Layout of the prior bounds *)

Section PriorsFacts.
Local Open Scope list_scope.
Local Open Scope nat_scope.

Lemma length_mul {A} (l : list A) (n : Z) :
  List.length (Py.mul l n) = Z.to_nat n * List.length l.
Proof.
  unfold Py.mul. induction (Z.to_nat n) as [|m IH]; simpl.
  - reflexivity.
  - rewrite length_app, IH. reflexivity.
Qed.

Lemma skipn_blocks {A} (b tl : list A) (n k : nat) :
  k <= n ->
  skipn (k * List.length b) (List.concat (repeat b n) ++ tl)
  = List.concat (repeat b (n - k)) ++ tl.
Proof.
  revert n. induction k as [|k IH]; intros n Hk.
  - rewrite Nat.sub_0_r. reflexivity.
  - destruct n as [|n]; [lia|].
    cbn [repeat List.concat Nat.mul Nat.sub].
    rewrite <- app_assoc, skipn_app.
    rewrite skipn_all2 by lia. cbn [app].
    replace (List.length b + k * List.length b - List.length b) with (k * List.length b) by lia.
    apply IH. lia.
Qed.

Lemma priors_unfold (N : Z) :
  priors N
  = List.concat (repeat (Py.reversed separation_block_src)
                   (Z.to_nat (N - 1)))
    ++ Py.reversed anchored_block_src.
Proof. reflexivity. Qed.

Lemma block_separation (N : Z) (k : nat) :
  k < Z.to_nat (N - 1) ->
  block k (priors N) = Py.reversed separation_block_src.
Proof.
  intros Hk. unfold block. rewrite priors_unfold.
  change (Z.to_nat npars) with (List.length (Py.reversed separation_block_src)).
  rewrite skipn_blocks by lia.
  destruct (Z.to_nat (N - 1) - k) as [|m] eqn:E; [lia|].
  cbn [repeat List.concat]. rewrite <- app_assoc.
  rewrite firstn_app, Nat.sub_diag, firstn_all. cbn [firstn].
  apply app_nil_r.
Qed.

Lemma block_anchored (N : Z) :
  block (Z.to_nat (N - 1)) (priors N) = Py.reversed anchored_block_src.
Proof.
  unfold block. rewrite priors_unfold.
  change (Z.to_nat npars) with (List.length (Py.reversed separation_block_src)).
  rewrite skipn_blocks by lia. rewrite Nat.sub_diag. reflexivity.
Qed.

Lemma block_beyond (N : Z) (k : nat) :
  Z.to_nat (N - 1) < k -> block k (priors N) = [].
Proof.
  intros Hk. unfold block. rewrite skipn_all2; [reflexivity|].
  unfold priors, priors_xoff_transformed.
  rewrite length_app, length_mul.
  change (List.length (Py.reversed separation_block_src)) with 6.
  change (List.length (Py.reversed anchored_block_src)) with 6.
  change (Z.to_nat npars) with 6. lia.
Qed.

Lemma length_priors (N : Z) :
  List.length (priors N) = 6 * Z.to_nat (N - 1) + 6.
Proof.
  unfold priors, priors_xoff_transformed.
  rewrite length_app, length_mul.
  change (List.length (Py.reversed separation_block_src)) with 6.
  change (List.length (Py.reversed anchored_block_src)) with 6. lia.
Qed.

End PriorsFacts.

Section WidthFloor.
Local Open Scope R_scope.

Lemma two_ln2_pos : 0 < 2 * ln 2.
Proof. pose proof ln_lt_2. lra. Qed.

(** The source's [x**0.5] is the square root of the claim. *)
Lemma sig2fwhm_sqrt : sig2fwhm = 2 * sqrt (2 * ln 2).
Proof.
  unfold sig2fwhm. replace 0.5 with (/ 2) by lra.
  rewrite Rpower_sqrt by exact two_ln2_pos. reflexivity.
Qed.

Lemma sig2fwhm_gt_2 : 2 < sig2fwhm.
Proof.
  rewrite sig2fwhm_sqrt.
  assert (1 < sqrt (2 * ln 2)).
  { rewrite <- sqrt_1 at 1. apply sqrt_lt_1; pose proof ln_lt_2; lra. }
  lra.
Qed.

Lemma min_sigma_pos : 0 < min_sigma.
Proof.
  unfold min_sigma. pose proof sig2fwhm_gt_2.
  apply Rdiv_lt_0_compat; lra.
Qed.

Lemma min_sigma_lt_1 : min_sigma < 1.
Proof.
  unfold min_sigma. pose proof sig2fwhm_gt_2.
  apply Rmult_lt_reg_r with sig2fwhm; [lra|].
  unfold Rdiv. rewrite Rmult_assoc, Rinv_l by lra. lra.
Qed.

End WidthFloor.

(** C1.  For a component count [N >= 1] the bounds list has [6 * N]
    intervals; its first [N - 1] blocks are separation blocks, whose
    velocity-offset field is the strictly positive interval [0.2, 3.0];
    its last block is the anchored block, whose velocity-offset field is
    [3, 10]; for [N = 1] the list is the anchored block alone. *)
Theorem priors_layout (N : Z) (HN : 1 <= N) :
  Z.of_nat (List.length (priors N)) = 6 * N
  /\ (forall k, (k < Z.to_nat (N - 1))%nat ->
        block k (priors N) = Py.reversed separation_block_src
        /\ field xoff_index_src k (priors N) = Some (0.2, 3.0)%R)
  /\ (0 < 0.2 < 3.0)%R
  /\ block (Z.to_nat (N - 1)) (priors N) = Py.reversed anchored_block_src
  /\ field xoff_index_src (Z.to_nat (N - 1)) (priors N) = Some (3, 10)%R
  /\ (N = 1 -> priors N = Py.reversed anchored_block_src).
Proof.
  repeat split.
  - rewrite length_priors. lia.
  - apply block_separation; assumption.
  - unfold field. rewrite block_separation by assumption. reflexivity.
  - lra.
  - lra.
  - apply block_anchored.
  - unfold field. rewrite block_anchored. reflexivity.
  - intros ->. reflexivity.
Qed.

Lemma priors_layout_witness :
  1 <= 3
  /\ Z.of_nat (List.length (priors 3)) = 18
  /\ field xoff_index_src 1 (priors 3) = Some (0.2, 3.0)%R
  /\ field xoff_index_src 2 (priors 3) = Some (3, 10)%R.
Proof.
  assert (H : 1 <= 3) by lia.
  destruct (priors_layout 3 H) as (Hlen & Hsep & _ & _ & Hanc & _).
  split; [exact H|]. split; [exact Hlen|]. split.
  - apply (Hsep 1%nat). simpl. lia.
  - exact Hanc.
Defined.

(** C8.  Every block of the bounds list, for every component count, has
    the line-width interval [min_sigma, 1], and [min_sigma] is
    [0.07 / (2 * sqrt (2 * ln 2))], a strictly positive number: no
    line-width bound starts below it. *)
Theorem width_floor (N : Z) :
  (forall k, (k <= Z.to_nat (N - 1))%nat ->
     field width_index_src k (priors N) = Some (min_sigma, 1%R))
  /\ (forall k iv, field width_index_src k (priors N) = Some iv ->
        fst iv = min_sigma)
  /\ min_sigma = (0.07 / (2 * sqrt (2 * ln 2)))%R
  /\ (0 < min_sigma)%R.
Proof.
  assert (Hin : forall k, (k <= Z.to_nat (N - 1))%nat ->
            field width_index_src k (priors N) = Some (min_sigma, 1%R)).
  { intros k Hk. unfold field.
    destruct (Nat.eq_dec k (Z.to_nat (N - 1))) as [->|Hne].
    - rewrite block_anchored. reflexivity.
    - rewrite block_separation by lia. reflexivity. }
  repeat split.
  - exact Hin.
  - intros k iv Hf.
    destruct (Nat.le_gt_cases k (Z.to_nat (N - 1))) as [Hk|Hk].
    + rewrite (Hin k Hk) in Hf. injection Hf as <-. reflexivity.
    + unfold field in Hf. rewrite block_beyond in Hf by lia. discriminate.
  - unfold min_sigma. rewrite sig2fwhm_sqrt. reflexivity.
  - exact min_sigma_pos.
Qed.

(** ** The script monad *)

Section MonadFacts.
Local Open Scope list_scope.
Context {A B : Type}.

Lemma bind_ok (m : M A) (k : A -> M B) (t : list event) (a : A) :
  m = (t, Ok a) -> bind m k = (t ++ trace (k a), outcome (k a)).
Proof. intros ->. unfold bind. destruct (k a). reflexivity. Qed.

Lemma bind_raise (m : M A) (k : A -> M B) (t : list event) (e : exn) :
  m = (t, Raise e) -> bind m k = (t, Raise e).
Proof. intros ->. reflexivity. Qed.

Lemma in_trace_bind (m : M A) (k : A -> M B) (e : event) :
  In e (trace (bind m k)) ->
  In e (trace m) \/ exists a, outcome m = Ok a /\ In e (trace (k a)).
Proof.
  destruct m as [t [a|x]]; unfold bind; simpl.
  - destruct (k a) as [t' r] eqn:E. simpl. intros H.
    apply in_app_or in H as [H|H]; [now left|].
    right. exists a. rewrite E. now split.
  - now left.
Qed.

End MonadFacts.

(** Splits on whatever the goal or a hypothesis still branches on. *)
Ltac innermost x :=
  lazymatch x with
  | context [match _ with _ => _ end] => fail
  | _ => idtac
  end.

Ltac branch :=
  match goal with
  | |- context [match ?x with _ => _ end] => innermost x; destruct x eqn:?
  | H : context [match ?x with _ => _ end] |- _ =>
      innermost x; destruct x eqn:?
  end.

Ltac run_script :=
  cbn [bind try_except lift ret emit raise read_name trace outcome
       fst snd app] in *.

Ltac crunch := repeat (run_script; try branch); run_script.

(** ** Command line *)

Section CommandLine.
Local Open Scope list_scope.

Lemma index_raises {A} (l : list A) (i : Z) (e : exn) :
  Py.index l i = Raise e -> e = IndexError.
Proof.
  unfold Py.index. repeat branch; intros H; congruence.
Qed.

Lemma index_missing {A} (l : list A) (i : Z) :
  Z.of_nat (List.length l) <= i -> Py.index l i = Raise IndexError.
Proof.
  intros H. unfold Py.index.
  destruct (i <? 0) eqn:Hi; [lia|].
  destruct (0 <=? i) eqn:H0; [|reflexivity].
  destruct (i <? Z.of_nat (List.length l)) eqn:H1; [lia|reflexivity].
Qed.

Lemma index_present {A} (l : list A) (i : Z) (a : A) :
  Py.index l i = Ok a -> In a l.
Proof.
  unfold Py.index. repeat branch; intros H; try discriminate.
  all: injection H as <-; eapply nth_error_In; eassumption.
Qed.

Lemma int_raises (s : string) (e : exn) :
  Py.int s = Raise e -> e = ValueError.
Proof. unfold Py.int. repeat branch; congruence. Qed.

(** What the three [try] statements do, by the argument they read. *)
Lemma parse_npeaks_spec (av : list string) :
  match Py.index av 1 with
  | Ok s => parse_npeaks av = ([], Py.int s)
  | Raise _ =>
      parse_npeaks av = ([LogInfoNpeaksDefault default_npeaks],
                         Ok default_npeaks)
  end.
Proof.
  unfold parse_npeaks. destruct (Py.index av 1) as [s|e] eqn:E.
  - run_script. destruct (Py.int s) as [z|e] eqn:Ei; run_script.
    + reflexivity.
    + rewrite (int_raises _ _ Ei). reflexivity.
  - rewrite (index_raises _ _ _ E). reflexivity.
Qed.

Lemma parse_plotting_spec (av : list string) :
  match Py.index av 4 with
  | Ok s =>
      parse_plotting av
      = ([], match Py.int s with
             | Ok z => Ok (negb (z =? 0))
             | Raise e => Raise e
             end)
  | Raise _ => parse_plotting av = ([], Ok false)
  end.
Proof.
  unfold parse_plotting. destruct (Py.index av 4) as [s|e] eqn:E.
  - run_script. destruct (Py.int s) as [z|e] eqn:Ei; run_script.
    + reflexivity.
    + rewrite (int_raises _ _ Ei). reflexivity.
  - rewrite (index_raises _ _ _ E). reflexivity.
Qed.

Lemma parse_yx_spec (av : list string) :
  match Py.index av 2 with
  | Ok s2 =>
      match Py.int s2 with
      | Ok y =>
          match Py.index av 3 with
          | Ok s3 =>
              parse_yx av
              = ([], match Py.int s3 with
                     | Ok x => Ok (y, x)
                     | Raise e => Raise e
                     end)
          | Raise _ =>
              parse_yx av = ([LogInfoXYDefault 112 140], Ok (140, 112))
          end
      | Raise _ => parse_yx av = ([], Raise ValueError)
      end
  | Raise _ => parse_yx av = ([LogInfoXYDefault 112 140], Ok (140, 112))
  end.
Proof.
  unfold parse_yx. destruct (Py.index av 2) as [s2|e] eqn:E2.
  - run_script. destruct (Py.int s2) as [y|e] eqn:Ey; run_script.
    + destruct (Py.index av 3) as [s3|e] eqn:E3; run_script.
      * destruct (Py.int s3) as [x|e] eqn:Ex; run_script.
        -- reflexivity.
        -- rewrite (int_raises _ _ Ex). reflexivity.
      * rewrite (index_raises _ _ _ E3). reflexivity.
    + rewrite (int_raises _ _ Ey). reflexivity.
  - rewrite (index_raises _ _ _ E2). reflexivity.
Qed.

Lemma parse_args_unfold (av : list string) :
  parse_args av
  = (n <- parse_npeaks av ;;
     p <- parse_yx av ;;
     b <- parse_plotting av ;;
     ret {| npeaks := n; yx := p; plotting := b |}).
Proof. reflexivity. Qed.

(** The only calls of the parser are its two notices. *)
Lemma parse_args_events (av : list string) (e : event) :
  In e (trace (parse_args av)) ->
  e = LogInfoNpeaksDefault 2 \/ e = LogInfoXYDefault 112 140.
Proof.
  rewrite parse_args_unfold.
  pose proof (parse_npeaks_spec av) as Hn.
  pose proof (parse_yx_spec av) as Hp.
  pose proof (parse_plotting_spec av) as Hb.
  repeat first [rewrite Hn | rewrite Hp | rewrite Hb | branch
               | progress run_script];
    simpl; intuition.
Qed.

(** An exception of the parser is a [ValueError] of [int] on an argument
    that is present. *)
Lemma parse_args_raises (av : list string) (t : list event) (e : exn) :
  parse_args av = (t, Raise e) ->
  e = ValueError /\ exists s, In s av /\ Py.int s = Raise ValueError.
Proof.
  rewrite parse_args_unfold.
  pose proof (parse_npeaks_spec av) as Hn.
  pose proof (parse_yx_spec av) as Hp.
  pose proof (parse_plotting_spec av) as Hb.
  repeat first [rewrite Hn | rewrite Hp | rewrite Hb | branch
               | progress run_script];
    intros H; try discriminate; injection H as <- <-;
    repeat match goal with
    | H : Py.int _ = Raise _ |- _ =>
        pose proof (int_raises _ _ H); subst; revert H
    end; intros;
    (split; [reflexivity|]);
    match goal with
    | Hi : Py.index av _ = Ok ?s, Hs : Py.int ?s = Raise ValueError |- _ =>
        exists s; split; [exact (index_present _ _ _ Hi)|exact Hs]
    end.
Qed.

End CommandLine.

(** An argument that is missing gets its default, whatever the others
    are. *)
Lemma parse_args_missing (av : list string) (t : list event) (a : Args) :
  parse_args av = (t, Ok a) ->
  ((List.length av <= 1)%nat ->
     npeaks a = 2 /\ In (LogInfoNpeaksDefault 2) t)
  /\ ((List.length av <= 2)%nat -> pixel_y a = 140)
  /\ ((List.length av <= 3)%nat ->
        pixel_x a = 112 /\ In (LogInfoXYDefault 112 140) t)
  /\ ((List.length av <= 4)%nat -> plotting a = false).
Proof.
  rewrite parse_args_unfold.
  pose proof (parse_npeaks_spec av) as Hn.
  pose proof (parse_yx_spec av) as Hp.
  pose proof (parse_plotting_spec av) as Hb.
  pose proof (index_missing av 1) as M1.
  pose proof (index_missing av 2) as M2.
  pose proof (index_missing av 3) as M3.
  pose proof (index_missing av 4) as M4.
  repeat first [rewrite Hn | rewrite Hp | rewrite Hb | branch
               | progress run_script];
    intros H; try discriminate; injection H as <- <-;
    unfold pixel_x, pixel_y; cbn [npeaks yx plotting fst snd];
    repeat split; intros;
    try solve [ exfalso;
                match goal with
                | M : _ <= _ -> Ok _ = Raise _ |- _ =>
                    specialize (M ltac:(lia)); discriminate M
                end ];
    try reflexivity; simpl; auto.
Qed.

(** C9.  With no argument the script takes two components, pixel
    x = 112, y = 140, and no plotting; whatever else is on the command
    line, an argument that is missing gets its default, each by its own
    caught [IndexError]; a missing argument is never an error: the only
    exception of the parser is the [ValueError] of [int] on an argument
    that is present. *)
Theorem default_arguments :
  (forall prog,
     parse_args [prog]
     = ([LogInfoNpeaksDefault 2; LogInfoXYDefault 112 140],
        Ok {| npeaks := 2; yx := (140, 112); plotting := false |}))
  /\ (forall av t a, parse_args av = (t, Ok a) ->
        ((List.length av <= 1)%nat ->
           npeaks a = 2 /\ In (LogInfoNpeaksDefault 2) t)
        /\ ((List.length av <= 2)%nat -> pixel_y a = 140)
        /\ ((List.length av <= 3)%nat ->
              pixel_x a = 112 /\ In (LogInfoXYDefault 112 140) t)
        /\ ((List.length av <= 4)%nat -> plotting a = false))
  /\ (forall av t e, parse_args av = (t, Raise e) ->
        e = ValueError
        /\ exists s, In s av /\ Py.int s = Raise ValueError)
  /\ (forall av,
        ((List.length av <= 1)%nat ->
           Py.index av 1 = Raise IndexError
           /\ parse_npeaks av = ([LogInfoNpeaksDefault 2], Ok 2))
        /\ ((List.length av <= 2)%nat ->
              Py.index av 2 = Raise IndexError
              /\ parse_yx av = ([LogInfoXYDefault 112 140], Ok (140, 112)))
        /\ ((List.length av <= 4)%nat ->
              Py.index av 4 = Raise IndexError
              /\ parse_plotting av = ([], Ok false))).
Proof.
  split; [reflexivity|]. split; [exact parse_args_missing|].
  split; [exact parse_args_raises|].
  intros av.
  split; [|split]; intros L; (split; [apply index_missing; lia|]).
  - pose proof (parse_npeaks_spec av) as H.
    rewrite index_missing in H by lia. exact H.
  - pose proof (parse_yx_spec av) as H.
    rewrite index_missing in H by lia. exact H.
  - pose proof (parse_plotting_spec av) as H.
    rewrite index_missing in H by lia. exact H.
Qed.

(** The two pixel arguments share one [try]: a [y] given without an [x]
    is dropped with it. *)
Example y_without_x :
  parse_args ["innocent_script.py"; "3"; "100"]
  = ([LogInfoXYDefault 112 140],
     Ok {| npeaks := 3; yx := (140, 112); plotting := false |}).
Proof. reflexivity. Qed.

(** ** The stages of the script *)

Section Stages.
Local Open Scope list_scope.
Variable w : World.

Lemma set_flags_spec (b : bool) :
  set_flags b = (if b then [PltRc] else [], Ok (flags_of b)).
Proof. destruct b; reflexivity. Qed.

(** The guard fails exactly when no channel is finite or the trial
    log-likelihood is not. *)
Lemma guard_fails_iff (m : Model) (n : Z) :
  guard_fails m n = true <->
  Forall (fun f => isfinite f = false) (ydata m)
  \/ isfinite (log_likelihood m (Py.mul trial_block n)
                 (model_npars m) (dof m)) = false.
Proof.
  unfold guard_fails, no_valid_chans, sanity_check.
  rewrite orb_true_iff, !negb_true_iff.
  assert (E : existsb isfinite (ydata m) = false
              <-> Forall (fun f => isfinite f = false) (ydata m)).
  { induction (ydata m) as [|f l IH]; simpl.
    - split; [constructor|reflexivity].
    - rewrite orb_false_iff, IH. split.
      + intros [? ?]. now constructor.
      + intros H. inversion H. now split. }
  rewrite E. reflexivity.
Qed.

Lemma sanity_guard_spec (a : Args) :
  sanity_guard (nh3_model w a) a
  = if guard_fails (nh3_model w a) (npeaks a)
    then ([LogErrorNoValidPixels (pixel_x a) (pixel_y a)], Raise SystemExit)
    else ([], Ok tt).
Proof. unfold sanity_guard. destruct guard_fails; reflexivity. Qed.

Lemma create_chains_dir_spec (path : string) :
  create_chains_dir w path
  = if path_exists w path then ([], Ok tt)
    else ([Makedirs path], handle_makedirs (makedirs w path)).
Proof.
  unfold create_chains_dir. destruct (path_exists w path); [reflexivity|].
  run_script. cbn [negb]. run_script. reflexivity.
Qed.

Lemma run_multinest_spec (a : Args) :
  run_multinest w (nh3_model w a) (chains_basename w a)
  = ([sampler_call w a], multinest_run w (chains_basename w a)).
Proof. reflexivity. Qed.

(** Lines 155-248, by the outcome of the directory step and of the
    sampler call. *)
Lemma sampling_spec (a : Args) (fl : Flags) :
  sampling w a fl
  = match outcome (create_chains_dir w (chains_dir w a)) with
    | Raise e => (trace (create_chains_dir w (chains_dir w a)), Raise e)
    | Ok _ =>
        match multinest_run w (chains_basename w a) with
        | Raise e =>
            (trace (create_chains_dir w (chains_dir w a))
               ++ [sampler_call w a], Raise e)
        | Ok _ =>
            (trace (create_chains_dir w (chains_dir w a))
               ++ [sampler_call w a] ++ trace (post_sampling w a fl),
             outcome (post_sampling w a fl))
        end
    end.
Proof.
  unfold sampling. rewrite run_multinest_spec.
  destruct (create_chains_dir w (chains_dir w a)) as [t [u|e]]; run_script.
  - destruct (multinest_run w (chains_basename w a)) as [u'|e]; run_script.
    + destruct (post_sampling w a fl). reflexivity.
    + reflexivity.
  - reflexivity.
Qed.

(** Lines 92-248, by the verdict of the guard. *)
Lemma pipeline_spec (a : Args) :
  pipeline w a
  = if guard_fails (nh3_model w a) (npeaks a)
    then (trace (set_flags (plotting a))
            ++ [LogErrorNoValidPixels (pixel_x a) (pixel_y a)],
          Raise SystemExit)
    else (trace (set_flags (plotting a))
            ++ trace (sampling w a (flags_of (plotting a))),
          outcome (sampling w a (flags_of (plotting a)))).
Proof.
  unfold pipeline. rewrite set_flags_spec, sanity_guard_spec.
  destruct guard_fails; run_script.
  - reflexivity.
  - destruct (sampling w a (flags_of (plotting a))). reflexivity.
Qed.

Lemma script_spec (t0 : list event) (a : Args) :
  parse_args (argv w) = (t0, Ok a) ->
  script w = (t0 ++ trace (pipeline w a), outcome (pipeline w a)).
Proof. intros H. unfold script. now apply bind_ok. Qed.

End Stages.

(** ** After the sampler call *)

Section PostSampling.
Local Open Scope list_scope.
Variable w : World.

(** Reading membership in a log off the structure of the computation. *)
Ltac atoms H :=
  cbn [trace outcome lift emit ret raise fst snd In andb] in H.

Ltac leaves :=
  repeat match goal with
  | H : _ \/ _ |- _ => destruct H
  | H : False |- _ => destruct H
  end; subst; try reflexivity.

Ltac peel H :=
  repeat (apply in_trace_bind in H as [H|(? & _ & H)]; atoms H);
  leaves.

Lemma bayes_factors_events (Zs : list R) (n : Z)
  (report : Z -> Z -> R -> event) (e : event) :
  In e (trace (bayes_factors Zs n report)) -> exists m v, e = report n m v.
Proof.
  unfold bayes_factors. crunch; simpl; intros H; leaves; eauto.
Qed.

Lemma read_baseline_events (e : event) :
  In e (trace (read_baseline w)) -> after_sampler e = true.
Proof.
  unfold read_baseline. crunch; simpl; intros H; leaves.
Qed.

Opaque bayes_factors read_baseline.

(** The first block does something only on the coordinator with the
    plot switch on. *)
Lemma evidence_block_events (a : Args) (fl : Flags) (e : event) :
  In e (trace (evidence_block w a fl)) ->
  i_am_root w = Ok true /\ plot_fit fl = true /\ after_sampler e = true.
Proof.
  unfold evidence_block. intros H.
  apply in_trace_bind in H as [H|(root & Hroot & H)]; atoms H; [easy|].
  atoms Hroot. destruct root, (plot_fit fl); atoms H; try easy.
  split; [assumption|]. split; [reflexivity|].
  peel H.
  - now apply read_baseline_events in H.
  - apply bayes_factors_events in H as (m & v & ->). reflexivity.
Qed.

Lemma fit_block_events (a : Args) (fl : Flags) (bound : option (list R))
  (e : event) :
  In e (trace (fit_block w a fl bound)) ->
  i_am_root w = Ok true /\ plot_fit fl = true /\ after_sampler e = true.
Proof.
  unfold fit_block. intros H.
  destruct (plot_fit fl); atoms H; [|easy].
  apply in_trace_bind in H as [H|(root & Hroot & H)]; atoms H; [easy|].
  atoms Hroot. destruct root; atoms H; [|easy].
  split; [assumption|]. split; [reflexivity|].
  peel H.
  - revert H. crunch; simpl; intros H; leaves.
  - destruct bound; atoms H; easy.
  - apply bayes_factors_events in H as (m & v & ->). reflexivity.
  - destruct (show_fit fl); atoms H; leaves.
Qed.

Lemma corner_block_events (a : Args) (fl : Flags)
  (bound : option (list R)) (e : event) :
  In e (trace (corner_block w a fl bound)) ->
  i_am_root w = Ok true /\ plot_corner fl = true /\ after_sampler e = true.
Proof.
  unfold corner_block. intros H.
  destruct (plot_corner fl); atoms H; [|easy].
  apply in_trace_bind in H as [H|(root & Hroot & H)]; atoms H; [easy|].
  atoms Hroot. destruct root; atoms H; [|easy].
  split; [assumption|]. split; [reflexivity|].
  peel H.
  - destruct bound; atoms H; easy.
  - destruct (show_corner fl); atoms H; leaves.
Qed.

Transparent bayes_factors read_baseline.

(** Lines 179-248 do something only on the coordinator with the plotting
    flag set. *)
Lemma post_sampling_events (a : Args) (b : bool) (e : event) :
  In e (trace (post_sampling w a (flags_of b))) ->
  i_am_root w = Ok true /\ b = true /\ after_sampler e = true.
Proof.
  unfold post_sampling. intros H.
  apply in_trace_bind in H as [H|(bound & _ & H)].
  - now apply evidence_block_events in H.
  - apply in_trace_bind in H as [H|(? & _ & H)].
    + now apply fit_block_events in H.
    + now apply corner_block_events in H.
Qed.

(** With the flag off they do nothing at all. *)
Lemma post_sampling_off (a : Args) :
  post_sampling w a (flags_of false)
  = ([], match i_am_root w with
         | Ok _ => Ok tt
         | Raise e => Raise e
         end).
Proof.
  unfold post_sampling, evidence_block, fit_block, corner_block.
  cbn [flags_of plot_fit plot_corner].
  destruct (i_am_root w) as [r|e]; run_script.
  - rewrite andb_false_r. reflexivity.
  - reflexivity.
Qed.

End PostSampling.

(** ** The whole run *)

Section WholeRun.
Local Open Scope list_scope.
Variable w : World.

Lemma create_chains_dir_events (path : string) (e : event) :
  In e (trace (create_chains_dir w path)) ->
  e = Makedirs path /\ path_exists w path = false.
Proof.
  rewrite create_chains_dir_spec.
  destruct (path_exists w path) eqn:E; simpl.
  - intros [].
  - intros [<-|[]]. now split.
Qed.

Lemma sampling_events (a : Args) (b : bool) (e : event) :
  In e (trace (sampling w a (flags_of b))) ->
  e = Makedirs (chains_dir w a) /\ path_exists w (chains_dir w a) = false
  \/ e = sampler_call w a
  \/ In e (trace (post_sampling w a (flags_of b))).
Proof.
  rewrite sampling_spec. intros H.
  destruct (outcome (create_chains_dir w (chains_dir w a)));
    [destruct (multinest_run w (chains_basename w a))|];
    cbn [trace fst] in H;
    repeat (apply in_app_or in H as [H|H]);
    try (apply create_chains_dir_events in H; now left);
    try (destruct H as [<-|[]]; now (right; left)).
  now (right; right).
Qed.

(** Every call of a run is one of these. *)
Lemma script_events (e : event) :
  In e (trace (script w)) ->
  e = LogInfoNpeaksDefault 2
  \/ e = LogInfoXYDefault 112 140
  \/ exists a,
       outcome (parse_args (argv w)) = Ok a
       /\ (e = PltRc /\ plotting a = true
           \/ e = LogErrorNoValidPixels (pixel_x a) (pixel_y a)
              /\ guard_fails (nh3_model w a) (npeaks a) = true
           \/ guard_fails (nh3_model w a) (npeaks a) = false
              /\ (e = Makedirs (chains_dir w a)
                  /\ path_exists w (chains_dir w a) = false
                  \/ e = sampler_call w a
                  \/ In e (trace (post_sampling w a
                                    (flags_of (plotting a)))))).
Proof.
  unfold script. intros H.
  apply in_trace_bind in H as [H|(a & Ha & H)].
  - apply parse_args_events in H as [->| ->]; auto.
  - right; right. exists a. split; [exact Ha|].
    rewrite pipeline_spec in H.
    assert (Hfl : In e (trace (set_flags (plotting a))) ->
                  e = PltRc /\ plotting a = true).
    { rewrite set_flags_spec. destruct (plotting a); simpl; intuition. }
    destruct (guard_fails (nh3_model w a) (npeaks a)); cbn [trace fst] in H;
      apply in_app_or in H as [H|H]; auto.
    + destruct H as [<-|[]]. auto.
    + right; right. split; [reflexivity|]. now apply sampling_events.
Qed.

End WholeRun.

(** ** Safeguard, sampler call and plotting switch *)

Section GuardSamplerPlotting.
Local Open Scope list_scope.

(** A log line of the guard appears only when the guard fails. *)
Lemma abort_logged_only_on_failure (w : World) (t0 : list event) (a : Args)
  (x y : Z) :
  parse_args (argv w) = (t0, Ok a) ->
  In (LogErrorNoValidPixels x y) (trace (script w)) ->
  guard_fails (nh3_model w a) (npeaks a) = true.
Proof.
  intros Hparse H.
  apply script_events in H as [H|[H|(a' & Ha & H)]]; try discriminate.
  rewrite Hparse in Ha. injection Ha as <-.
  destruct H as [[H _]|[[_ H]|[_ [[H _]|[H|H]]]]]; try discriminate.
  - exact H.
  - apply post_sampling_events in H as (_ & _ & H). discriminate.
Qed.

(** C2.  When no channel of the spectrum is finite, or the log-likelihood
    at the trial vector (the block [15, 5, 15, 0.2, 7, 0.5] repeated
    [npeaks] times) is not finite, the run logs the pixel, ends with
    [sys.exit()] (status 0), and has called neither the sampler nor
    anything that writes a directory or a file.  Otherwise the guard lets
    the run through to lines 155-175: the directory step and then the
    sampler call, which is made unless the directory step itself
    raises. *)
Theorem sanity_guard_gate (w : World) (t0 : list event) (a : Args)
  (Hparse : parse_args (argv w) = (t0, Ok a)) :
  let m := nh3_model w a in
  let failing :=
    Forall (fun f => isfinite f = false) (ydata m)
    \/ isfinite (log_likelihood m (Py.mul trial_block (npeaks a))
                   (model_npars m) (dof m)) = false in
  (failing ->
     script w
     = (t0 ++ trace (set_flags (plotting a))
           ++ [LogErrorNoValidPixels (pixel_x a) (pixel_y a)],
        Raise SystemExit)
     /\ exit_status (outcome (script w)) = 0
     /\ forall e, In e (trace (script w)) ->
          is_sampler_call e = false /\ mutates_files e = false)
  /\ (~ failing ->
        script w
        = (t0 ++ trace (set_flags (plotting a))
              ++ trace (sampling w a (flags_of (plotting a))),
           outcome (sampling w a (flags_of (plotting a))))
        /\ (forall x y, ~ In (LogErrorNoValidPixels x y) (trace (script w)))
        /\ (In (sampler_call w a) (trace (script w))
            \/ exists e,
                 path_exists w (chains_dir w a) = false
                 /\ handle_makedirs (makedirs w (chains_dir w a)) = Raise e
                 /\ outcome (script w) = Raise e)).
Proof.
  intros m failing. subst m failing. cbv zeta.
  rewrite <- guard_fails_iff.
  pose proof (script_spec w t0 a Hparse) as Hs.
  rewrite pipeline_spec in Hs.
  split; intros Hg.
  - rewrite Hg in Hs. cbn [trace outcome fst snd] in Hs.
    rewrite Hs. split; [reflexivity|]. split; [reflexivity|].
    intros e He. cbn [trace fst] in He.
    apply in_app_or in He as [He|He].
    + assert (He' : In e (trace (parse_args (argv w))))
        by (rewrite Hparse; exact He).
      apply parse_args_events in He' as [->| ->]; now split.
    + apply in_app_or in He as [He|He].
      * rewrite set_flags_spec in He.
        destruct (plotting a); simpl in He; [|easy].
        destruct He as [<-|[]]. now split.
      * destruct He as [<-|[]]. now split.
  - apply not_true_is_false in Hg.
    split; [|split].
    + rewrite Hg in Hs. exact Hs.
    + intros x y H. pose proof (abort_logged_only_on_failure w t0 a x y
                                  Hparse H). congruence.
    + rewrite Hg in Hs. cbn [trace outcome fst snd] in Hs. rewrite Hs.
      cbn [trace outcome fst snd]. rewrite sampling_spec.
      rewrite create_chains_dir_spec.
      destruct (path_exists w (chains_dir w a)) eqn:Ex;
        cbn [trace outcome fst snd].
      * left. destruct (multinest_run w (chains_basename w a));
          cbn [trace fst]; rewrite !in_app_iff; simpl; auto 10.
      * destruct (handle_makedirs (makedirs w (chains_dir w a))) as [u|e].
        -- left. destruct (multinest_run w (chains_basename w a));
             cbn [trace fst]; rewrite !in_app_iff; simpl; auto 10.
        -- right. exists e. auto.
Qed.

Lemma sanity_guard_gate_witness :
  script Demo.dark_pixel
  = ([LogInfoNpeaksDefault 2; LogInfoXYDefault 112 140;
      LogErrorNoValidPixels 112 140], Raise SystemExit).
Proof.
  destruct (sanity_guard_gate Demo.dark_pixel _ _ eq_refl) as [Hfail _].
  destruct Hfail as [H _].
  - left. repeat constructor.
  - exact H.
Defined.

(** A run that passes the guard and stops in the directory step, before
    the sampler: [os.makedirs] raises errno 13. *)
Example denied_run :
  script Demo.denied
  = ([LogInfoNpeaksDefault 2; LogInfoXYDefault 112 140;
      Makedirs (chains_dir Demo.denied
                  {| npeaks := 2; yx := (140, 112); plotting := false |})],
     Raise (OSError (Some 13))).
Proof. reflexivity. Qed.

(** C7.  An exception of [pymultinest.run] is the exception of the whole
    run: nothing catches it, nothing after line 175 is executed. *)
Theorem sampler_error_propagates (w : World) (t0 : list event) (a : Args)
  (e : exn)
  (Hparse : parse_args (argv w) = (t0, Ok a))
  (Hguard : guard_fails (nh3_model w a) (npeaks a) = false)
  (Hdir : outcome (create_chains_dir w (chains_dir w a)) = Ok tt)
  (Hrun : multinest_run w (chains_basename w a) = Raise e) :
  run_multinest w (nh3_model w a) (chains_basename w a)
  = ([sampler_call w a], Raise e)
  /\ script w
     = (t0 ++ trace (set_flags (plotting a))
           ++ trace (create_chains_dir w (chains_dir w a))
           ++ [sampler_call w a],
        Raise e)
  /\ (e <> SystemExit -> exit_status (outcome (script w)) = 1).
Proof.
  assert (Hs : script w
               = (t0 ++ trace (set_flags (plotting a))
                     ++ trace (create_chains_dir w (chains_dir w a))
                     ++ [sampler_call w a], Raise e)).
  { rewrite (script_spec w t0 a Hparse), pipeline_spec, Hguard.
    cbn [trace outcome fst snd]. rewrite sampling_spec, Hdir, Hrun.
    reflexivity. }
  split; [|split].
  - rewrite run_multinest_spec, Hrun. reflexivity.
  - exact Hs.
  - intros Hne. rewrite Hs. destruct e; try reflexivity. congruence.
Qed.

Lemma sampler_error_propagates_witness :
  outcome (script Demo.sampler_crash) = Raise (Exception "RuntimeError")
  /\ exit_status (outcome (script Demo.sampler_crash)) = 1.
Proof.
  destruct (sampler_error_propagates Demo.sampler_crash _ _
              (Exception "RuntimeError") eq_refl eq_refl eq_refl eq_refl)
    as (_ & Hs & Hx).
  split.
  - rewrite Hs. reflexivity.
  - apply Hx. discriminate.
Defined.

(** C10.  With the plotting flag off nothing of lines 179-248 is called:
    no evidence is read, no Bayes factor is computed or reported, no
    figure is made.  A run that reaches the sampler ends right after it:
    the sampler call is the last entry of its log. *)
Theorem plotting_off_skips_post (w : World) (t0 : list event) (a : Args)
  (Hparse : parse_args (argv w) = (t0, Ok a))
  (Hoff : plotting a = false) :
  (forall e, In e (trace (script w)) -> after_sampler e = false)
  /\ trace (post_sampling w a (flags_of (plotting a))) = []
  /\ (guard_fails (nh3_model w a) (npeaks a) = false ->
      outcome (create_chains_dir w (chains_dir w a)) = Ok tt ->
      multinest_run w (chains_basename w a) = Ok tt ->
      trace (script w)
      = t0 ++ trace (create_chains_dir w (chains_dir w a))
           ++ [sampler_call w a]
      /\ forall r, i_am_root w = Ok r -> outcome (script w) = Ok tt).
Proof.
  split; [|split].
  - intros e He.
    apply script_events in He as [->|[->|(a' & Ha & H)]]; try reflexivity.
    rewrite Hparse in Ha. injection Ha as <-.
    destruct H as [[-> _]|[[-> _]|[_ [[-> _]|[->|H]]]]]; try reflexivity.
    apply post_sampling_events in H as (_ & H & _). congruence.
  - rewrite Hoff, post_sampling_off. reflexivity.
  - intros Hguard Hdir Hrun.
    rewrite (script_spec w t0 a Hparse), pipeline_spec, Hguard.
    cbn [trace outcome fst snd].
    rewrite sampling_spec, Hdir, Hrun, set_flags_spec, Hoff.
    rewrite post_sampling_off. cbn [trace outcome fst snd app].
    rewrite ?app_nil_r. split; [reflexivity|].
    intros r ->. reflexivity.
Qed.

Lemma plotting_off_skips_post_witness :
  trace (script Demo.batch)
  = [] ++ [] ++ [sampler_call Demo.batch
                {| npeaks := 3; yx := (140, 112); plotting := false |}]
  /\ outcome (script Demo.batch) = Ok tt.
Proof.
  destruct (plotting_off_skips_post Demo.batch _ _ eq_refl eq_refl)
    as (_ & _ & H).
  destruct (H eq_refl eq_refl eq_refl) as [Ht Ho].
  split; [exact Ht|]. exact (Ho true eq_refl).
Defined.

End GuardSamplerPlotting.

(** ** The coordinator *)

Section Coordinator.
Local Open Scope list_scope.

(** The log of the rank-1 process that finds no output directory. *)
Lemma worker_run :
  script Demo.worker
  = ([LogInfoNpeaksDefault 2; LogInfoXYDefault 112 140;
      Makedirs (chains_dir Demo.worker
                  {| npeaks := 2; yx := (140, 112); plotting := false |});
      sampler_call Demo.worker
        {| npeaks := 2; yx := (140, 112); plotting := false |}],
     Ok tt).
Proof. reflexivity. Qed.

(** C4, as stated, fails: a process that is not the coordinator creates
    the output directory. *)
Lemma coordinator_gate_counterexample :
  ~ (forall w e,
       In e (trace (script w)) -> coordinator_only e = true ->
       i_am_root w = Ok true).
Proof.
  intros H.
  specialize (H Demo.worker
                (Makedirs (chains_dir Demo.worker
                   {| npeaks := 2; yx := (140, 112); plotting := false |}))).
  rewrite worker_run in H.
  assert (E : i_am_root Demo.worker = Ok true).
  { apply H; [simpl; auto|reflexivity]. }
  discriminate E.
Qed.

(** C4, amended.  Computing the baseline evidence, every figure
    operation, and every other call of lines 179-248 happen only on the
    coordinator.  Creating the output directory is not reserved to it:
    any process that finds the path absent calls [os.makedirs], and that
    is the only change a process other than the coordinator makes to the
    file system itself. *)
Theorem coordinator_gate (w : World) (e : event)
  (Hin : In e (trace (script w))) :
  (computes_baseline e = true \/ plots e = true \/ after_sampler e = true ->
   i_am_root w = Ok true)
  /\ (mutates_files e = true ->
      i_am_root w = Ok true
      \/ exists a,
           outcome (parse_args (argv w)) = Ok a
           /\ e = Makedirs (chains_dir w a)
           /\ path_exists w (chains_dir w a) = false).
Proof.
  apply script_events in Hin as [->|[->|(a & Ha & H)]].
  - split; [intros [H|[H|H]]|intros H]; discriminate.
  - split; [intros [H|[H|H]]|intros H]; discriminate.
  - destruct H as [[-> _]|[[-> _]|[_ [[-> Hex]|[->|H]]]]].
    + split; [intros [H|[H|H]]|intros H]; discriminate.
    + split; [intros [H|[H|H]]|intros H]; discriminate.
    + split; [intros [H|[H|H]]; discriminate|intros _].
      right. exists a. auto.
    + split; [intros [H|[H|H]]|intros H]; discriminate.
    + apply post_sampling_events in H as (Hroot & _ & _).
      split; intros _; auto.
Qed.

Lemma coordinator_gate_witness :
  In (Makedirs (chains_dir Demo.worker
                  {| npeaks := 2; yx := (140, 112); plotting := false |}))
     (trace (script Demo.worker))
  /\ (i_am_root Demo.worker = Ok true
      \/ exists a,
           outcome (parse_args (argv Demo.worker)) = Ok a
           /\ Makedirs (chains_dir Demo.worker
                {| npeaks := 2; yx := (140, 112); plotting := false |})
              = Makedirs (chains_dir Demo.worker a)
           /\ path_exists Demo.worker (chains_dir Demo.worker a) = false).
Proof.
  assert (Hin : In (Makedirs (chains_dir Demo.worker
                   {| npeaks := 2; yx := (140, 112); plotting := false |}))
                  (trace (script Demo.worker))).
  { rewrite worker_run. simpl. auto. }
  split; [exact Hin|].
  exact (proj2 (coordinator_gate Demo.worker _ Hin) eq_refl).
Defined.

End Coordinator.

(** ** Creating the output directory *)

Section Directory.
Local Open Scope list_scope.
Local Open Scope nat_scope.
Variable path : string.

Lemma handle_makedirs_exists (e : exn) :
  is_OSError e = true -> errno_of e = Some 17%Z ->
  handle_makedirs (Raise e) = Ok tt.
Proof. intros H1 H2. unfold handle_makedirs. rewrite H1, H2. reflexivity. Qed.

Lemma handle_makedirs_other (e : exn) :
  is_OSError e = false \/ errno_of e <> Some 17%Z ->
  handle_makedirs (Raise e) = Raise e.
Proof.
  intros H. unfold handle_makedirs.
  destruct (is_OSError e); [|reflexivity].
  destruct (errno_of e) as [n|]; [|reflexivity].
  destruct (Z.eqb_spec n 17) as [->|Hn]; [|reflexivity].
  destruct H; congruence.
Qed.

Lemma fs_exists_cons (fs : FileSystem) :
  fs_exists (path :: fs) path = true.
Proof. unfold fs_exists. simpl. now rewrite String.eqb_refl. Qed.

Ltac tidy :=
  repeat split; intros;
  repeat match goal with
  | H : Past _ = Past _ |- _ => injection H as <-
  end;
  try discriminate; try congruence; auto; try (simpl; lia).

Lemma proc_step_settled (fs : FileSystem) (c : pc) :
  count_occ string_dec fs path = (if fs_exists fs path then 1 else 0) ->
  (forall r, c = Past r -> r = Ok tt /\ fs_exists fs path = true) ->
  count_occ string_dec (fst (proc_step path fs c)) path
  = (if fs_exists (fst (proc_step path fs c)) path then 1 else 0)
  /\ (forall r, snd (proc_step path fs c) = Past r ->
        r = Ok tt /\ fs_exists (fst (proc_step path fs c)) path = true)
  /\ (fs_exists fs path = true ->
        fs_exists (fst (proc_step path fs c)) path = true)
  /\ Nat.min 2 (S (progress c)) <= progress (snd (proc_step path fs c)).
Proof.
  intros Hc Hp. destruct c as [| |r]; cbn [proc_step].
  - destruct (fs_exists fs path) eqn:E; cbn [negb fst snd]; rewrite ?E; tidy.
  - unfold fs_makedirs. destruct (fs_exists fs path) eqn:E; cbn [fst snd].
    + rewrite ?E. tidy.
    + rewrite fs_exists_cons. cbn [count_occ].
      destruct (string_dec path path) as [_|N]; [|congruence]. tidy.
  - destruct (Hp r eq_refl) as [-> E]. cbn [fst snd]. rewrite E in *. tidy.
Qed.

Lemma sys_step_settled (s : System) (who : bool) :
  settled path s -> settled path (sys_step path s who).
Proof.
  intros (Hc & H1 & H2). unfold sys_step.
  destruct who.
  - destruct (proc_step_settled (files s) (second s) Hc H2)
      as (Hc' & Hp' & Hex & _).
    destruct (proc_step path (files s) (second s)) as [fs' c'].
    cbn [fst snd] in *.
    split; [exact Hc'|]. split; intros r H; cbn [files first second] in *.
    + destruct (H1 r H) as [-> E]. split; [reflexivity|exact (Hex E)].
    + exact (Hp' r H).
  - destruct (proc_step_settled (files s) (first s) Hc H1)
      as (Hc' & Hp' & Hex & _).
    destruct (proc_step path (files s) (first s)) as [fs' c'].
    cbn [fst snd] in *.
    split; [exact Hc'|]. split; intros r H; cbn [files first second] in *.
    + exact (Hp' r H).
    + destruct (H2 r H) as [-> E]. split; [reflexivity|exact (Hex E)].
Qed.

Lemma sys_run_settled (schedule : list bool) (s : System) :
  settled path s -> settled path (sys_run path s schedule).
Proof.
  revert s. induction schedule as [|who l IH]; intros s Hs.
  - exact Hs.
  - apply IH, sys_step_settled, Hs.
Qed.

(** Being through is final. *)
Lemma proc_step_progress (fs : FileSystem) (c : pc) :
  progress c <= progress (snd (proc_step path fs c))
  /\ Nat.min 2 (S (progress c)) <= progress (snd (proc_step path fs c)).
Proof.
  destruct c as [| |r]; cbn [proc_step].
  - destruct (fs_exists fs path); simpl; lia.
  - destruct (fs_makedirs fs path); simpl; lia.
  - simpl; lia.
Qed.

Lemma sys_run_progress (schedule : list bool) (s : System) :
  Nat.min 2 (progress (first s) + turns false schedule)
  <= progress (first (sys_run path s schedule))
  /\ Nat.min 2 (progress (second s) + turns true schedule)
     <= progress (second (sys_run path s schedule)).
Proof.
  revert s. induction schedule as [|who l IH]; intros s.
  - unfold sys_run, turns. cbn [fold_left count_occ]. lia.
  - cbn [sys_run fold_left]. fold (sys_run path (sys_step path s who) l).
    specialize (IH (sys_step path s who)). unfold turns in *.
    unfold sys_step in *.
    destruct who; cbn [count_occ];
      [ pose proof (proc_step_progress (files s) (second s)) as P;
        destruct (proc_step path (files s) (second s)) as [fs' c']
      | pose proof (proc_step_progress (files s) (first s)) as P;
        destruct (proc_step path (files s) (first s)) as [fs' c'] ];
      cbn [first second files fst snd] in *;
      repeat match goal with
      | |- context [bool_dec ?a ?b] => destruct (bool_dec a b); try congruence
      end; lia.
Qed.

Lemma progress_past (c : pc) : 2 <= progress c -> exists r, c = Past r.
Proof. destruct c; simpl; try lia. eauto. Qed.

(** One process alone on a file system does what [create_chains_dir] does
    in the world that file system presents. *)
Lemma proc_alone (w : World) (fs : FileSystem) :
  snd (proc_step path (fst (proc_step path fs AtExists))
         (snd (proc_step path fs AtExists)))
  = Past (outcome (create_chains_dir (world_on w fs) path)).
Proof.
  rewrite create_chains_dir_spec.
  cbn [proc_step world_on path_exists makedirs].
  destruct (fs_exists fs path) eqn:E; cbn [negb fst snd proc_step outcome].
  - reflexivity.
  - destruct (fs_makedirs fs path). reflexivity.
Qed.

End Directory.

(** The race itself: both processes see the path absent, then both call
    [os.makedirs]; the second call raises errno 17, which is dropped. *)
Example race :
  sys_run "chains/ngc1333-gas_x112y140" (sys_init [])
    [false; true; false; true]
  = {| files := ["chains/ngc1333-gas_x112y140"];
       first := Past (Ok tt);
       second := Past (Ok tt) |}.
Proof. reflexivity. Qed.

(** C5.  In lines 160-166 an [OSError] with errno 17 raised by
    [os.makedirs] is dropped and the step succeeds; any other exception
    of [os.makedirs] leaves the step as it is and ends the run.  Two
    processes that run the step on the same absent path, interleaved in
    any way, both succeed, and the path is created exactly once. *)
Theorem directory_creation (w : World) (path : string) :
  (path_exists w path = true -> create_chains_dir w path = ([], Ok tt))
  /\ (forall e,
        path_exists w path = false -> makedirs w path = Raise e ->
        is_OSError e = true -> errno_of e = Some 17 ->
        create_chains_dir w path = ([Makedirs path], Ok tt))
  /\ (forall e,
        path_exists w path = false -> makedirs w path = Raise e ->
        is_OSError e = false \/ errno_of e <> Some 17 ->
        create_chains_dir w path = ([Makedirs path], Raise e)
        /\ forall t0 a,
             parse_args (argv w) = (t0, Ok a) ->
             guard_fails (nh3_model w a) (npeaks a) = false ->
             path = chains_dir w a ->
             outcome (script w) = Raise e
             /\ ~ In (sampler_call w a) (trace (script w)))
  /\ (forall fs schedule,
        fs_exists fs path = false ->
        (2 <= turns false schedule)%nat ->
        (2 <= turns true schedule)%nat ->
        first (sys_run path (sys_init fs) schedule) = Past (Ok tt)
        /\ second (sys_run path (sys_init fs) schedule) = Past (Ok tt)
        /\ creations path fs (files (sys_run path (sys_init fs) schedule))
           = 1%nat).
Proof.
  split; [|split; [|split]].
  - intros E. rewrite create_chains_dir_spec, E. reflexivity.
  - intros e E Hm H1 H2.
    rewrite create_chains_dir_spec, E, Hm, handle_makedirs_exists; auto.
  - intros e E Hm Hother.
    assert (Hc : create_chains_dir w path = ([Makedirs path], Raise e)).
    { rewrite create_chains_dir_spec, E, Hm, handle_makedirs_other; auto. }
    split; [exact Hc|].
    intros t0 a Hparse Hguard ->.
    rewrite (script_spec w t0 a Hparse), pipeline_spec, Hguard.
    cbn [trace outcome fst snd]. rewrite sampling_spec, Hc.
    cbn [trace outcome fst snd]. split; [reflexivity|].
    rewrite !in_app_iff. intros [H|[H|H]].
    + assert (H' : In (sampler_call w a) (trace (parse_args (argv w))))
        by (rewrite Hparse; exact H).
      apply parse_args_events in H' as [H'|H']; discriminate.
    + rewrite set_flags_spec in H.
      destruct (plotting a); simpl in H; intuition discriminate.
    + simpl in H. intuition discriminate.
  - intros fs schedule Hfs T1 T2.
    set (s := sys_run path (sys_init fs) schedule).
    assert (Hinit : settled path (sys_init fs)).
    { unfold settled, sys_init. cbn [files first second]. rewrite Hfs.
      split; [|split; intros r H; discriminate].
      unfold fs_exists in Hfs. clear -Hfs.
      induction fs as [|p fs IH]; [reflexivity|].
      simpl in Hfs. apply orb_false_iff in Hfs as [Hp Hfs].
      cbn [count_occ]. destruct (string_dec p path) as [->|_].
      - now rewrite String.eqb_refl in Hp.
      - auto. }
    pose proof (sys_run_settled path schedule _ Hinit) as (Hc & H1 & H2).
    fold s in Hc, H1, H2.
    pose proof (sys_run_progress path schedule (sys_init fs)) as [P1 P2].
    fold s in P1, P2. cbn [sys_init first second progress] in P1, P2.
    destruct (progress_past (first s)) as [r1 E1]; [lia|].
    destruct (progress_past (second s)) as [r2 E2]; [lia|].
    destruct (H1 r1 E1) as [-> Ex]. destruct (H2 r2 E2) as [-> _].
    split; [exact E1|]. split; [exact E2|].
    unfold creations. rewrite Hc, Ex.
    assert (Hz : count_occ string_dec fs path = 0%nat).
    { destruct Hinit as [Hi _]. cbn [sys_init files] in Hi.
      now rewrite Hfs in Hi. }
    rewrite Hz. reflexivity.
Qed.

(** ** Evidence report *)

Section Evidence.
Local Open Scope list_scope.
Variable w : World.

Lemma index_nth {A} (l : list A) (i : Z) (d : A) :
  0 <= i < Z.of_nat (List.length l) ->
  Py.index l i = Ok (nth (Z.to_nat i) l d).
Proof.
  intros H. unfold Py.index.
  destruct (i <? 0) eqn:Hi; [lia|].
  destruct (0 <=? i) eqn:H0; [|lia].
  destruct (i <? Z.of_nat (List.length l)) eqn:H1; [|lia].
  cbn [andb].
  destruct (nth_error l (Z.to_nat i)) as [a|] eqn:E.
  - now rewrite (nth_error_nth _ _ d E).
  - apply nth_error_None in E. lia.
Qed.

(** The two differences, for a list with an entry for each of the models
    with 0 to [n] components. *)
Lemma bayes_factors_spec (Zs : list R) (n : Z)
  (report : Z -> Z -> R -> event) :
  0 < n -> List.length Zs = Z.to_nat (n + 1) ->
  bayes_factors Zs n report
  = (report n (n - 1)
       (nth (Z.to_nat n) Zs 0 - nth (Z.to_nat (n - 1)) Zs 0)%R
     :: (if n >? 1
         then [report n 0 (nth (Z.to_nat n) Zs 0 - nth 0 Zs 0)%R]
         else []),
     Ok tt).
Proof.
  intros Hn Hlen. unfold bayes_factors.
  rewrite (index_nth Zs n 0%R) by lia.
  rewrite (index_nth Zs (n - 1) 0%R) by lia.
  rewrite (index_nth Zs 0 0%R) by lia.
  run_script. destruct (n >? 1); reflexivity.
Qed.

(** For one component the two comparisons are the same one, and it is
    reported once. *)
Lemma bayes_factors_single (Zs : list R) (report : Z -> Z -> R -> event) :
  List.length Zs = 2%nat ->
  bayes_factors Zs 1 report
  = ([report 1 0 (nth 1 Zs 0 - nth 0 Zs 0)%R], Ok tt).
Proof. intros H. now rewrite bayes_factors_spec. Qed.

(** Lines 188-193 when the cached file cannot be read. *)
Lemma read_baseline_fallback (e : exn) :
  fits_getdata w baseline_file = Raise e ->
  catches_missing_file e = true ->
  read_baseline w
  = ([FitsGetdata baseline_file; MakeCubeShh; GetZeroEvidence false],
     Ok (get_zero_evidence w (cube (make_cube_shh w))
           (errorcube (make_cube_shh w)) false)).
Proof.
  intros Hf Hc. unfold read_baseline. rewrite Hf. run_script.
  rewrite Hc. reflexivity.
Qed.

Lemma read_baseline_cached (g : Grid) :
  fits_getdata w baseline_file = Ok g ->
  read_baseline w = ([FitsGetdata baseline_file], Ok g).
Proof. intros Hf. unfold read_baseline. rewrite Hf. reflexivity. Qed.

Opaque bayes_factors.

(** Lines 179-201 on the coordinator of a plotting run. *)
Lemma evidence_block_spec (a : Args) (fl : Flags) (tb : list event)
  (g : Grid) :
  i_am_root w = Ok true -> plot_fit fl = true ->
  read_baseline w = (tb, Ok g) ->
  evidence_block w a fl
  = ([AnalyzerXY (pixel_x a) (pixel_y a) (npeaks a) (output_dir w);
      LogInfoLnZ (npeaks a)
        (global_evidence w (pixel_x a) (pixel_y a) (npeaks a))]
     ++ tb
     ++ [LnZXY (Py.arange (npeaks a + 1)) (pixel_x a) (pixel_y a)
           (g (pixel_y a) (pixel_x a), 0%R)]
     ++ trace (bayes_factors (Zs_of w a g) (npeaks a) LogInfoBayes),
     match outcome (bayes_factors (Zs_of w a g) (npeaks a) LogInfoBayes) with
     | Ok _ => Ok (Some (Zs_of w a g))
     | Raise e => Raise e
     end).
Proof.
  intros Hroot Hplot Hb. unfold evidence_block, Zs_of.
  rewrite Hroot, Hplot, Hb. run_script. cbn [andb]. run_script.
  destruct (bayes_factors _ _ _) as [t [u|e]]; run_script;
    rewrite ?app_nil_r; reflexivity.
Qed.

Transparent bayes_factors.

Lemma trace_bind_prefix {A B} (m : M A) (k : A -> M B) :
  exists t, trace (bind m k) = trace m ++ t.
Proof.
  destruct m as [t [a|e]]; unfold bind; cbn [trace fst].
  - destruct (k a) as [t' r]. now exists t'.
  - exists []. now rewrite app_nil_r.
Qed.

(** A run that gets past the sampler call. *)
Lemma script_reaches_post (t0 : list event) (a : Args) :
  parse_args (argv w) = (t0, Ok a) ->
  guard_fails (nh3_model w a) (npeaks a) = false ->
  outcome (create_chains_dir w (chains_dir w a)) = Ok tt ->
  multinest_run w (chains_basename w a) = Ok tt ->
  script w
  = ((t0 ++ trace (set_flags (plotting a))
         ++ trace (create_chains_dir w (chains_dir w a)))
     ++ sampler_call w a
        :: trace (post_sampling w a (flags_of (plotting a))),
     outcome (post_sampling w a (flags_of (plotting a)))).
Proof.
  intros Hparse Hguard Hdir Hrun.
  rewrite (script_spec w t0 a Hparse), pipeline_spec, Hguard.
  cbn [trace outcome fst snd]. rewrite sampling_spec, Hdir, Hrun.
  cbn [trace outcome fst snd]. rewrite <- !app_assoc. reflexivity.
Qed.

Lemma in_post_sampling (a : Args) (fl : Flags) (e : event) :
  In e (trace (evidence_block w a fl)) ->
  In e (trace (post_sampling w a fl)).
Proof.
  intros H. unfold post_sampling.
  destruct (trace_bind_prefix (evidence_block w a fl)
              (fun bound => fit_block w a fl bound ;;
                            corner_block w a fl bound)) as [t ->].
  apply in_or_app. now left.
Qed.

End Evidence.

Section EvidenceReport.
Local Open Scope list_scope.

(** C3.  On the coordinator of a plotting run for [N > 0] components,
    after the sampler has returned, the run reports the difference of
    log-evidence between the models with [N] and [N - 1] components and
    the one between the models with [N] and 0 components, each as a
    plain difference of two entries of [Zs].  For [N = 1] the two are
    one and the same report. *)
Theorem bayes_factors_reported (w : World) (t0 tb : list event) (a : Args)
  (g : Grid)
  (Hparse : parse_args (argv w) = (t0, Ok a))
  (Hguard : guard_fails (nh3_model w a) (npeaks a) = false)
  (Hdir : outcome (create_chains_dir w (chains_dir w a)) = Ok tt)
  (Hrun : multinest_run w (chains_basename w a) = Ok tt)
  (Hroot : i_am_root w = Ok true)
  (Hplot : plotting a = true)
  (Hbase : read_baseline w = (tb, Ok g))
  (HN : 0 < npeaks a)
  (Hlen : List.length (Zs_of w a g) = Z.to_nat (npeaks a + 1)) :
  exists zN zM z0 before after,
    Py.index (Zs_of w a g) (npeaks a) = Ok zN
    /\ Py.index (Zs_of w a g) (npeaks a - 1) = Ok zM
    /\ Py.index (Zs_of w a g) 0 = Ok z0
    /\ trace (script w) = before ++ sampler_call w a :: after
    /\ In (LogInfoBayes (npeaks a) (npeaks a - 1) (zN - zM)%R) after
    /\ In (LogInfoBayes (npeaks a) 0 (zN - z0)%R) after.
Proof.
  exists (nth (Z.to_nat (npeaks a)) (Zs_of w a g) 0%R),
         (nth (Z.to_nat (npeaks a - 1)) (Zs_of w a g) 0%R),
         (nth 0 (Zs_of w a g) 0%R),
         (t0 ++ trace (set_flags (plotting a))
             ++ trace (create_chains_dir w (chains_dir w a)))%list,
         (trace (post_sampling w a (flags_of (plotting a)))).
  split; [apply index_nth; lia|].
  split; [apply index_nth; lia|].
  split; [apply (index_nth (Zs_of w a g) 0); lia|].
  split; [now rewrite (script_reaches_post w t0 a)|].
  assert (Hfl : plot_fit (flags_of (plotting a)) = true) by exact Hplot.
  pose proof (evidence_block_spec w a _ tb g Hroot Hfl Hbase) as He.
  rewrite (bayes_factors_spec (Zs_of w a g) (npeaks a) LogInfoBayes HN Hlen)
    in He.
  cbn [trace outcome fst snd] in He.
  split; apply in_post_sampling; rewrite He; cbn [trace fst];
    rewrite !in_app_iff; right; right.
  - simpl. auto.
  - destruct (npeaks a >? 1) eqn:E; [simpl; auto|].
    assert (E1 : npeaks a = 1) by lia. rewrite E1. simpl. auto.
Qed.

Lemma bayes_factors_reported_witness :
  exists before after,
    trace (script Demo.coordinator)
    = (before ++ sampler_call Demo.coordinator
                   {| npeaks := 2; yx := (140, 112); plotting := true |}
              :: after)%list
    /\ In (LogInfoBayes 2 1 (-85 - -80)%R) after
    /\ In (LogInfoBayes 2 0 (-85 - -100)%R) after.
Proof.
  destruct (bayes_factors_reported Demo.coordinator [] _ _ Demo.grid
              eq_refl eq_refl eq_refl eq_refl eq_refl eq_refl eq_refl
              eq_refl eq_refl)
    as (zN & zM & z0 & before & after & HN & HM & H0 & Ht & H1 & H2).
  injection HN as <-. injection HM as <-. injection H0 as <-.
  exists before, after. split; [exact Ht|]. split; [exact H1|exact H2].
Defined.

(** The figures of the specification: log-evidences -100, -80 and -85
    give 20 for one component against none and -5 for two against one. *)
Example bayes_factor_values :
  bayes_factors [-100; -80]%R 1 LogInfoBayes
  = ([LogInfoBayes 1 0 (-80 - -100)%R], Ok tt)
  /\ trace (bayes_factors [-100; -80; -85]%R 2 LogInfoBayes)
     = [LogInfoBayes 2 1 (-85 - -80)%R; LogInfoBayes 2 0 (-85 - -100)%R]
  /\ (-80 - -100 = 20)%R /\ (-85 - -80 = -5)%R.
Proof. repeat split; try reflexivity; lra. Qed.

(** C6.  When reading the cached baseline file raises
    [FileNotFoundError] or [OSError], the coordinator does not fail: it
    builds the cube, computes the zero-component evidence from the cube
    and its error cube, and hands the value of that grid at the pixel to
    [lnZ_xy]; the Bayes factors are then reported from the list so
    obtained. *)
Theorem baseline_fallback (w : World) (t0 : list event) (a : Args)
  (e : exn)
  (Hparse : parse_args (argv w) = (t0, Ok a))
  (Hguard : guard_fails (nh3_model w a) (npeaks a) = false)
  (Hdir : outcome (create_chains_dir w (chains_dir w a)) = Ok tt)
  (Hrun : multinest_run w (chains_basename w a) = Ok tt)
  (Hroot : i_am_root w = Ok true)
  (Hplot : plotting a = true)
  (Hmiss : fits_getdata w baseline_file = Raise e)
  (Hkind : exists n, e = FileNotFoundError n \/ e = OSError n) :
  let g := get_zero_evidence w (cube (make_cube_shh w))
             (errorcube (make_cube_shh w)) false in
  read_baseline w
  = ([FitsGetdata baseline_file; MakeCubeShh; GetZeroEvidence false], Ok g)
  /\ exists before after,
       trace (script w) = before ++ sampler_call w a :: after
       /\ In MakeCubeShh after
       /\ In (GetZeroEvidence false) after
       /\ In (LnZXY (Py.arange (npeaks a + 1)) (pixel_x a) (pixel_y a)
                (g (pixel_y a) (pixel_x a), 0%R)) after
       /\ (0 < npeaks a ->
           List.length (Zs_of w a g) = Z.to_nat (npeaks a + 1) ->
           outcome (evidence_block w a (flags_of (plotting a)))
           = Ok (Some (Zs_of w a g))
           /\ In (LogInfoBayes (npeaks a) (npeaks a - 1)
                    (nth (Z.to_nat (npeaks a)) (Zs_of w a g) 0
                     - nth (Z.to_nat (npeaks a - 1)) (Zs_of w a g) 0)%R)
                 after).
Proof.
  intros g.
  assert (Hc : catches_missing_file e = true)
    by (destruct Hkind as [n [-> | ->]]; reflexivity).
  pose proof (read_baseline_fallback w e Hmiss Hc) as Hb. fold g in Hb.
  split; [exact Hb|].
  exists (t0 ++ trace (set_flags (plotting a))
             ++ trace (create_chains_dir w (chains_dir w a))),
         (trace (post_sampling w a (flags_of (plotting a)))).
  split; [now rewrite (script_reaches_post w t0 a)|].
  assert (Hfl : plot_fit (flags_of (plotting a)) = true) by exact Hplot.
  pose proof (evidence_block_spec w a _ _ g Hroot Hfl Hb) as He.
  repeat split.
  - apply in_post_sampling. rewrite He. simpl. auto 12.
  - apply in_post_sampling. rewrite He. simpl. auto 12.
  - apply in_post_sampling. rewrite He. simpl. auto 12.
  - rewrite He. cbn [outcome snd].
    now rewrite (bayes_factors_spec (Zs_of w a g) (npeaks a) LogInfoBayes).
  - apply in_post_sampling. rewrite He.
    rewrite (bayes_factors_spec (Zs_of w a g) (npeaks a) LogInfoBayes)
      by assumption.
    simpl. auto 12.
Qed.

Lemma baseline_fallback_witness :
  read_baseline Demo.no_cache
  = ([FitsGetdata baseline_file; MakeCubeShh; GetZeroEvidence false],
     Ok (fun _ _ => (-100)%R))
  /\ exists before after,
       trace (script Demo.no_cache)
       = before ++ sampler_call Demo.no_cache
                     {| npeaks := 2; yx := (140, 112); plotting := true |}
                :: after
       /\ In (LnZXY [0; 1; 2] 112 140 ((-100)%R, 0%R)) after.
Proof.
  destruct (baseline_fallback Demo.no_cache [] _ (FileNotFoundError (Some 2))
              eq_refl eq_refl eq_refl eq_refl eq_refl eq_refl eq_refl
              (ex_intro _ (Some 2) (or_introl eq_refl)))
    as (Hb & before & after & Ht & _ & _ & Hl & _).
  split; [exact Hb|]. exists before, after. split; [exact Ht|exact Hl].
Defined.

End EvidenceReport.


(** ** Printing and reading integers *)

Section Decimal.
Local Open Scope list_scope.

Lemma chars_append (s t : string) :
  list_ascii_of_string (s ++ t)
  = list_ascii_of_string s ++ list_ascii_of_string t.
Proof. induction s as [|c s IH]; simpl; [reflexivity|now rewrite IH]. Qed.

Lemma digits_of_uint_acc (d : Decimal.uint) (acc : positive) :
  Py.digits (Z.pos acc) true
    (list_ascii_of_string (NilEmpty.string_of_uint d))
  = Some (Z.pos (Pos.of_uint_acc d acc)).
Proof.
  revert acc. induction d; intros acc; cbn [NilEmpty.string_of_uint
    list_ascii_of_string Py.digits Pos.of_uint_acc];
    [reflexivity|..];
    match goal with
    | |- context [Py.digit_of ?c] =>
        let v := eval vm_compute in (Py.digit_of c) in
        change (Py.digit_of c) with v; cbv iota
    end;
    match goal with
    | |- Py.digits ?z true _ = Some (Z.pos (Pos.of_uint_acc _ ?p)) =>
        replace z with (Z.pos p) by lia; apply IHd
    end.
Qed.

Lemma digits_of_uint (d : Decimal.uint) (b : bool) :
  d <> Decimal.Nil \/ b = true ->
  Py.digits 0 b (list_ascii_of_string (NilEmpty.string_of_uint d))
  = Some (Z.of_uint d).
Proof.
  revert b. induction d; intros b Hb;
    cbn [NilEmpty.string_of_uint list_ascii_of_string Py.digits].
  - destruct Hb as [Hb| ->]; [congruence|reflexivity].
  - change (Py.digit_of "0") with (Some 0). cbv iota.
    change (10 * 0 + 0) with 0. rewrite IHd by now right. reflexivity.
  - exact (digits_of_uint_acc d 1).
  - exact (digits_of_uint_acc d 2).
  - exact (digits_of_uint_acc d 3).
  - exact (digits_of_uint_acc d 4).
  - exact (digits_of_uint_acc d 5).
  - exact (digits_of_uint_acc d 6).
  - exact (digits_of_uint_acc d 7).
  - exact (digits_of_uint_acc d 8).
  - exact (digits_of_uint_acc d 9).
Qed.

Lemma uint_printable (d : Decimal.uint) :
  Forall (fun c => exists k, Py.digit_of c = Some k)
    (list_ascii_of_string (NilEmpty.string_of_uint d)).
Proof.
  induction d; cbn [NilEmpty.string_of_uint list_ascii_of_string];
    constructor; try assumption; eexists; reflexivity.
Qed.

Lemma nilzero_uint (d : Decimal.uint) :
  d <> Decimal.Nil -> NilZero.string_of_uint d = NilEmpty.string_of_uint d.
Proof. destruct d; [congruence|reflexivity..]. Qed.

Lemma to_int_nonnil (z : Z) :
  match Z.to_int z with
  | Decimal.Pos d | Decimal.Neg d => d <> Decimal.Nil
  end.
Proof.
  destruct z; cbn [Z.to_int]; try apply DecimalPos.Unsigned.to_uint_nonnil.
  discriminate.
Qed.

(** [str] prints the sign and digits, nothing else. *)
Lemma str_printable (z : Z) :
  Forall printable (list_ascii_of_string (Py.str z)).
Proof.
  unfold Py.str. pose proof (to_int_nonnil z) as Hn.
  assert (Hu : forall d, Forall printable
                 (list_ascii_of_string (NilEmpty.string_of_uint d))).
  { intros d. eapply Forall_impl; [|apply uint_printable].
    intros c H. now right. }
  destruct (Z.to_int z) as [d|d]; cbn [NilZero.string_of_int];
    rewrite nilzero_uint by assumption.
  - apply Hu.
  - cbn [list_ascii_of_string]. constructor; [now left|apply Hu].
Qed.

Lemma printable_not_space (c : ascii) :
  printable c -> Py.is_space c = false.
Proof.
  intros [->|[d Hd]]; [reflexivity|].
  unfold Py.digit_of in Hd. unfold Py.is_space.
  destruct ((48 <=? nat_of_ascii c)%nat && (nat_of_ascii c <=? 57)%nat)
    eqn:E; [|discriminate].
  apply andb_true_iff in E as [E1 E2].
  apply Nat.leb_le in E1. apply Nat.leb_le in E2.
  apply orb_false_iff. split; apply andb_false_iff.
  - right. apply Nat.leb_gt. lia.
  - right. apply Nat.leb_gt. lia.
Qed.

Lemma lstrip_id (l : list ascii) :
  Forall (fun c => Py.is_space c = false) l -> Py.lstrip l = l.
Proof. intros [|c l' Hc _]; cbn [Py.lstrip]; [|rewrite Hc]; reflexivity. Qed.

Lemma strip_id (l : list ascii) :
  Forall (fun c => Py.is_space c = false) l -> Py.strip l = l.
Proof.
  intros H. unfold Py.strip. rewrite (lstrip_id l H).
  rewrite lstrip_id by (apply Forall_rev; exact H).
  apply rev_involutive.
Qed.

(** Reading back what [str] printed gives the integer. *)
Lemma int_str (z : Z) : Py.int (Py.str z) = Ok z.
Proof.
  unfold Py.int. rewrite strip_id.
  2:{ eapply Forall_impl; [|apply str_printable].
      exact printable_not_space. }
  unfold Py.str. pose proof (to_int_nonnil z) as Hn.
  pose proof (DecimalZ.of_to z) as Hz.
  destruct (Z.to_int z) as [d|d]; cbn [NilZero.string_of_int];
    rewrite nilzero_uint by assumption; cbn [Z.of_int] in Hz.
  - pose proof (digits_of_uint d false (or_introl Hn)) as Hd.
    destruct d; try congruence;
      cbn [NilEmpty.string_of_uint list_ascii_of_string] in *;
      rewrite Hd, Hz; reflexivity.
  - cbn [list_ascii_of_string].
    rewrite (digits_of_uint d false (or_introl Hn)).
    cbn [option_map]. now rewrite Hz.
Qed.

Lemma str_inj (a b : Z) : Py.str a = Py.str b -> a = b.
Proof.
  intros H. pose proof (int_str a) as Ha. rewrite H, int_str in Ha.
  congruence.
Qed.

End Decimal.


(** ** A complete command line *)


(** ** Output names *)

Section OutputNames.
Local Open Scope list_scope.

Lemma split_at_first {A} (c : A) (l1 r1 l2 r2 : list A) :
  ~ In c l1 -> ~ In c l2 ->
  l1 ++ c :: r1 = l2 ++ c :: r2 -> l1 = l2 /\ r1 = r2.
Proof.
  revert l2. induction l1 as [|x l1 IH]; intros [|y l2] H1 H2 E;
    cbn [app] in E.
  - injection E as <-. now split.
  - injection E as <- _. exfalso. apply H2. now left.
  - injection E as -> _. exfalso. apply H1. now left.
  - injection E as <- E.
    destruct (IH l2) as [-> ->]; auto.
    + intros H. apply H1. now right.
    + intros H. apply H2. now right.
Qed.

Lemma not_in_str (c : ascii) (z : Z) :
  ~ printable c -> ~ In c (list_ascii_of_string (Py.str z)).
Proof.
  intros Hc H. pose proof (str_printable z) as F.
  rewrite Forall_forall in F. exact (Hc (F c H)).
Qed.

Lemma chars_inj (s t : string) :
  list_ascii_of_string s = list_ascii_of_string t -> s = t.
Proof.
  intros H. rewrite <- (string_of_list_ascii_of_string s), H.
  apply string_of_list_ascii_of_string.
Qed.

Lemma letter_y_not_printable : ~ printable "y".
Proof. intros [H|[d H]]; discriminate. Qed.

Lemma slash_not_printable : ~ printable "/".
Proof. intros [H|[d H]]; discriminate. Qed.

(** The pixel can be read off the suffix. *)
Lemma suffix_inj (a b : Args) (ra rb : list ascii) :
  list_ascii_of_string (suffix a) ++ "/"%char :: ra
  = list_ascii_of_string (suffix b) ++ "/"%char :: rb ->
  yx a = yx b /\ ra = rb.
Proof.
  unfold suffix. rewrite !chars_append. cbn [list_ascii_of_string app].
  rewrite <- !app_assoc. cbn [app]. intros E. injection E as E.
  apply split_at_first in E as [Ex E];
    try (apply not_in_str, letter_y_not_printable).
  apply split_at_first in E as [Ey E];
    try (apply not_in_str, slash_not_printable).
  apply chars_inj, str_inj in Ex. apply chars_inj, str_inj in Ey.
  split; [|exact E].
  destruct (yx a), (yx b). cbn [fst snd] in *. congruence.
Qed.

(** X2.  Within one project directory, the directory of a pixel
    determines the pixel, and the sampler's output prefix determines the
    pixel and the number of components: two different runs never write
    under the same prefix. *)
Theorem output_prefix_unique (w : World) (a b : Args) :
  (chains_dir w a = chains_dir w b -> yx a = yx b)
  /\ (chains_basename w a = chains_basename w b ->
      yx a = yx b /\ npeaks a = npeaks b).
Proof.
  assert (Hdir : forall ra rb,
            list_ascii_of_string (chains_dir w a) ++ "/"%char :: ra
            = list_ascii_of_string (chains_dir w b) ++ "/"%char :: rb ->
            yx a = yx b /\ ra = rb).
  { intros ra rb. unfold chains_dir. rewrite !chars_append.
    rewrite <- !app_assoc. intros E.
    do 4 apply app_inv_head in E. now apply suffix_inj. }
  split.
  - intros E. apply (f_equal list_ascii_of_string) in E.
    apply (f_equal (fun l => l ++ ["/"%char])) in E.
    now apply Hdir in E.
  - unfold chains_basename. intros E.
    apply (f_equal list_ascii_of_string) in E.
    rewrite !chars_append in E. cbn [list_ascii_of_string app] in E.
    apply Hdir in E as [Hyx E]. split; [exact Hyx|].
    apply app_inv_tail in E. now apply chars_inj, str_inj in E.
Qed.

(** X3.  Fitters for different numbers of components are registered
    under different names. *)
Theorem fittype_unique (n m : Z) : fittype n = fittype m -> n = m.
Proof.
  unfold fittype. intros E. apply (f_equal list_ascii_of_string) in E.
  rewrite !chars_append in E. apply app_inv_head in E.
  now apply chars_inj, str_inj in E.
Qed.

Lemma fittype_unique_witness :
  fittype 2 = "cold_ammonia_x2"%string /\ 2 = 2.
Proof. split; [reflexivity|exact (fittype_unique 2 2 eq_refl)]. Defined.

End OutputNames.


(** ** More on the prior bounds and the trial point *)

Section Bounds.
Local Open Scope list_scope.

Lemma in_mul {A} (l : list A) (n : Z) (x : A) :
  In x (Py.mul l n) -> In x l.
Proof.
  unfold Py.mul. induction (Z.to_nat n) as [|m IH]; cbn [repeat List.concat].
  - intros [].
  - intros H. apply in_app_or in H as [H|H]; auto.
Qed.

(** X4.  A component count of one, zero or below is not refused: the
    bounds list is then the anchored block alone, so for every count the
    list has [6 * max N 1] intervals. *)
Theorem priors_small_counts (N : Z) :
  (N <= 1 -> priors N = Py.reversed anchored_block_src)
  /\ Z.of_nat (List.length (priors N)) = 6 * Z.max N 1.
Proof.
  split.
  - intros H. rewrite priors_unfold.
    replace (Z.to_nat (N - 1)) with 0%nat by lia. reflexivity.
  - rewrite length_priors. lia.
Qed.

(** X5.  For every component count, every interval of the bounds list
    has its lower bound strictly below its upper bound. *)
Theorem priors_nonempty_intervals (N : Z) (iv : interval)
  (Hin : In iv (priors N)) :
  (fst iv < snd iv)%R.
Proof.
  pose proof min_sigma_lt_1 as Hs.
  unfold priors, priors_xoff_transformed in Hin.
  apply in_app_or in Hin as [Hin|Hin]; [apply in_mul in Hin|];
    unfold Py.reversed, separation_block_src, anchored_block_src,
      dxoff_prior in Hin;
    cbn [rev app In] in Hin;
    repeat (destruct Hin as [<-|Hin]; [cbn [fst snd]; try lra|]);
    try destruct Hin;
    unfold dv_min, dv_max; lra.
Qed.

Lemma priors_nonempty_intervals_witness :
  (fst (min_sigma, 1%R) < snd (min_sigma, 1%R))%R.
Proof.
  apply (priors_nonempty_intervals 2 (min_sigma, 1%R)).
  unfold priors, priors_xoff_transformed. apply in_or_app. right.
  unfold Py.reversed, anchored_block_src. cbn [rev app In]. auto 10.
Defined.

(** X6.  The trial vector of the safeguard has [6 * N] entries for a
    count [N >= 0] (none below), which is the length of the bounds list
    exactly when [N >= 1]; and each value of the trial block lies within
    the anchored block's interval for the same parameter. *)
Theorem trial_vector_shape (N : Z) :
  Z.of_nat (List.length (Py.mul trial_block N)) = 6 * Z.max N 0
  /\ (List.length (Py.mul trial_block N) = List.length (priors N)
      <-> 1 <= N)
  /\ Forall2 (fun v iv => (fst iv <= v <= snd iv)%R)
       trial_block anchored_block_src.
Proof.
  assert (Hl : Z.of_nat (List.length (Py.mul trial_block N))
               = 6 * Z.max N 0).
  { rewrite length_mul. cbn [trial_block List.length]. lia. }
  split; [exact Hl|]. split.
  - pose proof (length_priors N) as Hp. split; intros H; lia.
  - pose proof min_sigma_pos. pose proof sig2fwhm_gt_2 as H2.
    assert (min_sigma < 0.2)%R.
    { unfold min_sigma. apply Rmult_lt_reg_r with sig2fwhm; [lra|].
      unfold Rdiv. rewrite Rmult_assoc, Rinv_l by lra. lra. }
    unfold trial_block, anchored_block_src.
    repeat constructor; cbn [fst snd]; lra.
Qed.

End Bounds.


(** ** Parameter names of the fitter *)

Section Parnames.
Local Open Scope list_scope.

(** A repeated list is periodic. *)
Lemma nth_mul {A} (l : list A) (n : Z) (i : nat) (d : A) :
  (i < List.length (Py.mul l n))%nat ->
  nth i (Py.mul l n) d = nth (i mod List.length l) l d.
Proof.
  rewrite length_mul. unfold Py.mul.
  revert i. induction (Z.to_nat n) as [|m IH]; intros i Hi.
  - simpl in Hi. lia.
  - cbn [repeat List.concat].
    destruct (Nat.lt_ge_cases i (List.length l)) as [Hlt|Hge].
    + rewrite app_nth1 by exact Hlt. now rewrite Nat.mod_small.
    + rewrite app_nth2 by exact Hge. rewrite IH by lia.
      f_equal.
      assert (Hl : List.length l <> 0%nat) by lia.
      replace i with ((i - List.length l) + 1 * List.length l)%nat
        at 2 by lia.
      now rewrite Nat.Div0.mod_add.
Qed.

(** X7.  Lines 118-119 on a list of six names and a count [N >= 1]
    leave [6 * N] names, the six repeated in order; a list of another
    length, or a count of one or less, is left alone; and doing the step
    a second time changes nothing. *)
Theorem mirror_parnames_spec (parnames : list string) (N : Z) :
  (Z.of_nat (List.length parnames) = npars -> 1 <= N ->
   Z.of_nat (List.length (mirror_parnames parnames N)) = npars * N
   /\ forall i d,
        (i < List.length (mirror_parnames parnames N))%nat ->
        nth i (mirror_parnames parnames N) d = nth (i mod 6) parnames d)
  /\ (Z.of_nat (List.length parnames) <> npars \/ N <= 1 ->
      mirror_parnames parnames N = parnames)
  /\ mirror_parnames (mirror_parnames parnames N) N
     = mirror_parnames parnames N.
Proof.
  unfold mirror_parnames, npars.
  destruct (Z.eqb_spec (Z.of_nat (List.length parnames)) 6) as [Hl|Hl];
    destruct (Z.gtb_spec N 1) as [HN|HN]; cbn [andb].
  - split; [|split].
    + intros _ _. split.
      * rewrite length_mul. lia.
      * intros i d Hi. rewrite nth_mul by exact Hi.
        replace (List.length parnames) with 6%nat by lia. reflexivity.
    + intros [H|H]; [congruence|lia].
    + rewrite length_mul.
      destruct (Z.eqb_spec (Z.of_nat (Z.to_nat N * List.length parnames)) 6)
        as [E|E]; [nia|reflexivity].
  - split; [|split].
    + intros _ H1. split; [lia|].
      intros i d Hi. rewrite Nat.mod_small by lia. reflexivity.
    + reflexivity.
    + destruct (Z.eqb_spec (Z.of_nat (List.length parnames)) 6);
        [|congruence]. reflexivity.
  - split; [|split]; [congruence|reflexivity|].
    destruct (Z.eqb_spec (Z.of_nat (List.length parnames)) 6);
      [congruence|reflexivity].
  - split; [|split]; [congruence|reflexivity|].
    destruct (Z.eqb_spec (Z.of_nat (List.length parnames)) 6);
      [congruence|reflexivity].
Qed.

End Parnames.


(** ** The shape of a run *)

Section RunShape.
Local Open Scope list_scope.
Variable w : World.

(** A run stops in the parser, at the guard, in the directory step, in
    the sampler, or goes through lines 179-248. *)
Lemma script_shape :
  match parse_args (argv w) with
  | (t0, Raise e) => script w = (t0, Raise e)
  | (t0, Ok a) =>
      let pre := t0 ++ trace (set_flags (plotting a)) in
      let dir := create_chains_dir w (chains_dir w a) in
      if guard_fails (nh3_model w a) (npeaks a)
      then script w
           = (pre ++ [LogErrorNoValidPixels (pixel_x a) (pixel_y a)],
              Raise SystemExit)
      else match outcome dir with
           | Raise e => script w = (pre ++ trace dir, Raise e)
           | Ok _ =>
               match multinest_run w (chains_basename w a) with
               | Raise e =>
                   script w
                   = (pre ++ trace dir ++ [sampler_call w a], Raise e)
               | Ok _ =>
                   script w
                   = (pre ++ trace dir ++ [sampler_call w a]
                          ++ trace (post_sampling w a
                                      (flags_of (plotting a))),
                      outcome (post_sampling w a (flags_of (plotting a))))
               end
           end
  end.
Proof.
  destruct (parse_args (argv w)) as [t0 [a|e]] eqn:Hparse.
  - cbv zeta. rewrite (script_spec w t0 a Hparse), pipeline_spec.
    destruct (guard_fails (nh3_model w a) (npeaks a));
      cbn [trace outcome fst snd].
    + now rewrite app_assoc.
    + rewrite sampling_spec.
      destruct (outcome (create_chains_dir w (chains_dir w a)));
        [destruct (multinest_run w (chains_basename w a))|];
        cbn [trace outcome fst snd]; now rewrite app_assoc.
  - unfold script. now rewrite Hparse.
Qed.

Lemma filter_none {A} (f : A -> bool) (l : list A) :
  (forall x, In x l -> f x = false) -> filter f l = [].
Proof.
  induction l as [|x l IH]; intros H; [reflexivity|].
  cbn [filter]. rewrite (H x) by now left.
  apply IH. intros y Hy. apply H. now right.
Qed.

(** The parts of a run other than the sampler call itself hold no
    sampler call. *)
Lemma no_sampler_call_elsewhere (a : Args) (t0 : list event) :
  parse_args (argv w) = (t0, Ok a) ->
  (forall e, In e t0 -> is_sampler_call e = false)
  /\ (forall e, In e (trace (set_flags (plotting a))) ->
        is_sampler_call e = false)
  /\ (forall e, In e (trace (create_chains_dir w (chains_dir w a))) ->
        is_sampler_call e = false)
  /\ (forall e, In e (trace (post_sampling w a (flags_of (plotting a)))) ->
        is_sampler_call e = false).
Proof.
  intros Hparse. repeat split; intros e He.
  - assert (H : In e (trace (parse_args (argv w))))
      by (rewrite Hparse; exact He).
    apply parse_args_events in H as [->| ->]; reflexivity.
  - rewrite set_flags_spec in He.
    destruct (plotting a); simpl in He; [|easy].
    destruct He as [<-|[]]. reflexivity.
  - apply create_chains_dir_events in He as [-> _]. reflexivity.
  - apply post_sampling_events in He as (_ & _ & He).
    destruct e; try reflexivity; discriminate.
Qed.

End RunShape.

Section RunOrder.
Local Open Scope list_scope.

(** X8.  The sampler is called only for a command line that parsed,
    after the guard has passed and the directory step has succeeded, and
    then with the prefix and parameter count of that run. *)
Theorem sampler_preconditions (w : World) (e : event)
  (Hin : In e (trace (script w)))
  (Hcall : is_sampler_call e = true) :
  exists a,
    outcome (parse_args (argv w)) = Ok a
    /\ e = sampler_call w a
    /\ guard_fails (nh3_model w a) (npeaks a) = false
    /\ outcome (create_chains_dir w (chains_dir w a)) = Ok tt.
Proof.
  pose proof (script_shape w) as Hs.
  destruct (parse_args (argv w)) as [t0 [a|x]] eqn:Hparse.
  - destruct (no_sampler_call_elsewhere w a t0 Hparse)
      as (N0 & N1 & N2 & N3).
    assert (Hno : forall l, In e l ->
              (forall e', In e' l -> is_sampler_call e' = false) -> False).
    { intros l Hl Hn. rewrite (Hn e Hl) in Hcall. discriminate. }
    cbv zeta in Hs. exists a. split; [reflexivity|].
    destruct (guard_fails (nh3_model w a) (npeaks a)).
    + rewrite Hs in Hin. cbn [trace fst] in Hin.
      rewrite !in_app_iff in Hin.
      destruct Hin as [[H|H]|[<-|[]]]; [exfalso; eauto..|discriminate].
    + destruct (outcome (create_chains_dir w (chains_dir w a)))
        as [[]|x] eqn:Hd.
      * destruct (multinest_run w (chains_basename w a));
          rewrite Hs in Hin; cbn [trace fst] in Hin;
          rewrite !in_app_iff in Hin; cbn [In] in Hin;
          intuition (try (exfalso; eauto; fail); auto).
      * rewrite Hs in Hin. cbn [trace fst] in Hin.
        rewrite !in_app_iff in Hin.
        destruct Hin as [[H|H]|H]; exfalso; eauto.
  - rewrite Hs in Hin. cbn [trace fst] in Hin.
    assert (H : In e (trace (parse_args (argv w))))
      by (rewrite Hparse; exact Hin).
    apply parse_args_events in H as [->| ->]; discriminate.
Qed.

Lemma sampler_preconditions_witness :
  exists a,
    outcome (parse_args (argv Demo.batch)) = Ok a
    /\ guard_fails (nh3_model Demo.batch a) (npeaks a) = false.
Proof.
  destruct (sampler_preconditions Demo.batch
              (sampler_call Demo.batch
                 {| npeaks := 3; yx := (140, 112); plotting := false |}))
    as (a & Ha & _ & Hg & _).
  - assert (E : trace (script Demo.batch)
                = [sampler_call Demo.batch
                     {| npeaks := 3; yx := (140, 112); plotting := false |}])
      by reflexivity.
    rewrite E. now left.
  - reflexivity.
  - exists a. split; assumption.
Defined.

(** X9.  No run calls the sampler twice. *)
Theorem sampler_called_at_most_once (w : World) :
  (List.length (filter is_sampler_call (trace (script w))) <= 1)%nat.
Proof.
  pose proof (script_shape w) as Hs.
  destruct (parse_args (argv w)) as [t0 [a|x]] eqn:Hparse.
  - destruct (no_sampler_call_elsewhere w a t0 Hparse)
      as (N0 & N1 & N2 & N3).
    cbv zeta in Hs.
    destruct (guard_fails (nh3_model w a) (npeaks a));
      [|destruct (outcome (create_chains_dir w (chains_dir w a)));
        [destruct (multinest_run w (chains_basename w a))|]];
      rewrite Hs; cbn [trace fst]; rewrite !filter_app;
      rewrite ?(filter_none _ _ N0), ?(filter_none _ _ N1),
        ?(filter_none _ _ N2), ?(filter_none _ _ N3);
      cbn; lia.
  - rewrite Hs. cbn [trace fst]. rewrite filter_none; [cbn; lia|].
    intros e He.
    assert (H : In e (trace (parse_args (argv w))))
      by (rewrite Hparse; exact He).
    apply parse_args_events in H as [->| ->]; reflexivity.
Qed.

End RunOrder.


(** ** Figures *)

Ltac simpl_log H :=
  cbn [trace outcome lift emit ret raise fst snd In andb] in H.

Ltac sort_out H :=
  repeat match goal with
  | H : _ \/ _ |- _ => destruct H
  | H : False |- _ => destruct H
  end;
  try discriminate;
  try match goal with
  | H : Savefig _ = Savefig _ |- _ => injection H as <-; reflexivity
  end.

Section Figures.
Local Open Scope list_scope.
Variable w : World.

Opaque bayes_factors read_baseline.

Lemma fit_block_savefig (a : Args) (fl : Flags) (bound : option (list R))
  (p : string) :
  In (Savefig p) (trace (fit_block w a fl bound)) ->
  p = Py.path_join (fig_dir w) (fit_fig_name a ++ ".pdf")%string.
Proof.
  unfold fit_block. intros H.
  destruct (plot_fit fl); simpl_log H; [|easy].
  apply in_trace_bind in H as [H|(root & _ & H)]; simpl_log H; [easy|].
  destruct root; simpl_log H; [|easy].
  repeat (apply in_trace_bind in H as [H|(? & _ & H)]; simpl_log H);
    sort_out H.
  - revert H. crunch; simpl; intros H; sort_out H.
  - destruct bound; simpl_log H; easy.
  - apply bayes_factors_events in H as (m & v & H). discriminate.
  - destruct (show_fit fl); simpl_log H; sort_out H.
Qed.

Lemma corner_block_savefig (a : Args) (fl : Flags)
  (bound : option (list R)) (p : string) :
  In (Savefig p) (trace (corner_block w a fl bound)) ->
  p = (fig_dir w ++ corner_fig_name a ++ ".pdf")%string.
Proof.
  unfold corner_block. intros H.
  destruct (plot_corner fl); simpl_log H; [|easy].
  apply in_trace_bind in H as [H|(root & _ & H)]; simpl_log H; [easy|].
  destruct root; simpl_log H; [|easy].
  repeat (apply in_trace_bind in H as [H|(? & _ & H)]; simpl_log H);
    sort_out H.
  - destruct bound; simpl_log H; easy.
  - destruct (show_corner fl); simpl_log H; sort_out H.
Qed.

Lemma evidence_block_savefig (a : Args) (fl : Flags) (p : string) :
  ~ In (Savefig p) (trace (evidence_block w a fl)).
Proof.
  unfold evidence_block. intros H.
  apply in_trace_bind in H as [H|(root & _ & H)]; simpl_log H; [easy|].
  destruct root, (plot_fit fl); simpl_log H; try easy.
  repeat (apply in_trace_bind in H as [H|(? & _ & H)]; simpl_log H);
    sort_out H.
  - revert H. Transparent read_baseline. unfold read_baseline.
    crunch; simpl; intros H; sort_out H.
  - apply bayes_factors_events in H as (m & v & H). discriminate.
Qed.

Transparent bayes_factors read_baseline.

Lemma ends_with_sep_append (s t : string) :
  t <> ""%string ->
  Py.ends_with_sep (s ++ t)%string = Py.ends_with_sep t.
Proof.
  intros Ht. induction s as [|c s IH]; [reflexivity|].
  cbn [String.append Py.ends_with_sep].
  destruct (s ++ t)%string eqn:E; [|exact IH].
  destruct s; [|discriminate]. cbn in E. congruence.
Qed.

Lemma fig_dir_ends_with_sep : Py.ends_with_sep (fig_dir w) = true.
Proof.
  unfold fig_dir, Py.path_join.
  change (Py.starts_with_sep "figs/") with false. cbv iota.
  destruct (_ || _); rewrite ?ends_with_sep_append by discriminate;
    reflexivity.
Qed.

(** X10.  Both figures are written into the figure directory: line 230
    joins with [os.path.join], line 245 with [+], and the two agree
    because the directory name ends with a separator.  The two files
    have different names, and a run saves no other file. *)
Theorem figure_paths (a : Args) :
  Py.path_join (fig_dir w) (fit_fig_name a ++ ".pdf")
  = (fig_dir w ++ fit_fig_name a ++ ".pdf")%string
  /\ (fig_dir w ++ fit_fig_name a ++ ".pdf")%string
     <> (fig_dir w ++ corner_fig_name a ++ ".pdf")%string
  /\ forall b p,
       In (Savefig p) (trace (post_sampling w a (flags_of b))) ->
       p = (fig_dir w ++ fit_fig_name a ++ ".pdf")%string
       \/ p = (fig_dir w ++ corner_fig_name a ++ ".pdf")%string.
Proof.
  assert (Hjoin : Py.path_join (fig_dir w) (fit_fig_name a ++ ".pdf")
                  = (fig_dir w ++ fit_fig_name a ++ ".pdf")%string).
  { unfold Py.path_join.
    change (Py.starts_with_sep (fit_fig_name a ++ ".pdf")) with false.
    cbv iota. now rewrite fig_dir_ends_with_sep, orb_true_r. }
  split; [exact Hjoin|]. split.
  - intros E. apply (f_equal list_ascii_of_string) in E.
    rewrite !chars_append in E. apply app_inv_head in E.
    unfold fit_fig_name, corner_fig_name, name_id in E.
    cbn [String.append list_ascii_of_string app] in E. discriminate E.
  - intros b p H. unfold post_sampling in H.
    apply in_trace_bind in H as [H|(bound & _ & H)].
    + now apply evidence_block_savefig in H.
    + apply in_trace_bind in H as [H|(? & _ & H)].
      * apply fit_block_savefig in H. left. now rewrite <- Hjoin.
      * apply corner_block_savefig in H. now right.
Qed.

End Figures.

Section LaterBlocks.
Local Open Scope list_scope.

(** X11.  Lines 211-216 on the coordinator: when [plot_fit] with the
    parinfo object raises [TypeError], it is called again with the bare
    parameter list, and the figure is annotated and saved as usual; an
    exception of that second call, or any other exception of the first,
    ends the block before anything is annotated or saved. *)
Theorem plot_fit_fallback (w : World) (a : Args) (Zs : list R)
  (Hroot : i_am_root w = Ok true) :
  let head := [Plotter; ParsXY (pixel_x a) (pixel_y a) (npeaks a);
               PlotFit true] in
  (forall e,
     plot_fit_call w true = Raise e -> catches_TypeError e = false ->
     fit_block w a (flags_of true) (Some Zs) = (head, Raise e))
  /\ (forall e,
        plot_fit_call w true = Raise TypeError ->
        plot_fit_call w false = Raise e ->
        fit_block w a (flags_of true) (Some Zs)
        = (head ++ [PlotFit false], Raise e))
  /\ (forall tb,
        plot_fit_call w true = Raise TypeError ->
        plot_fit_call w false = Ok tt ->
        bayes_factors Zs (npeaks a) Annotate = (tb, Ok tt) ->
        fit_block w a (flags_of true) (Some Zs)
        = (head ++ [PlotFit false] ++ tb
             ++ [PltShow;
                 Savefig (Py.path_join (fig_dir w)
                            (fit_fig_name a ++ ".pdf"))],
           Ok tt)).
Proof.
  cbv zeta. unfold fit_block. cbn [flags_of plot_fit show_fit].
  rewrite Hroot. repeat split.
  - intros e H1 Hc. rewrite H1. run_script. rewrite Hc. reflexivity.
  - intros e H1 H2. rewrite H1, H2. reflexivity.
  - intros tb H1 H2 Hb. rewrite H1, H2. run_script. rewrite Hb.
    run_script. reflexivity.
Qed.

Lemma plot_fit_fallback_witness :
  trace (fit_block Demo.retry
           {| npeaks := 2; yx := (140, 112); plotting := true |}
           (flags_of true) (Some Demo.evidences))
  = [Plotter; ParsXY 112 140 2; PlotFit true; PlotFit false;
     Annotate 2 1 (-85 - -80)%R; Annotate 2 0 (-85 - -100)%R; PltShow;
     Savefig "/home/user/Projects/ngc1333-gas/nested-sampling/figs/ngc1333-gas-fit-x112y140-x2.pdf"].
Proof.
  destruct (plot_fit_fallback Demo.retry
              {| npeaks := 2; yx := (140, 112); plotting := true |}
              Demo.evidences eq_refl) as (_ & _ & H).
  rewrite (H _ eq_refl eq_refl eq_refl). reflexivity.
Defined.

(** X12.  The three blocks after the sampler test the same two things,
    so when the first one has not run and left [a] and [Zs] unbound, the
    other two do nothing: they never read an unbound name. *)
Theorem later_blocks_follow_first (w : World) (a : Args) (b : bool)
  (Hnone : outcome (evidence_block w a (flags_of b)) = Ok None) :
  fit_block w a (flags_of b) None = ([], Ok tt)
  /\ corner_block w a (flags_of b) None = ([], Ok tt).
Proof.
  unfold evidence_block, fit_block, corner_block in *.
  cbn [flags_of plot_fit plot_corner] in *.
  destruct (i_am_root w) as [root|e]; run_script; [|discriminate].
  destruct root, b; cbn [andb] in *; run_script; try (split; reflexivity).
  exfalso.
  destruct (read_baseline w) as [tb [g|e]]; run_script; [|discriminate].
  destruct (bayes_factors _ _ _) as [t [u|e]]; run_script; discriminate.
Qed.

Lemma later_blocks_follow_first_witness :
  fit_block Demo.worker
    {| npeaks := 2; yx := (140, 112); plotting := false |}
    (flags_of false) None = ([], Ok tt).
Proof.
  exact (proj1 (later_blocks_follow_first Demo.worker
                  {| npeaks := 2; yx := (140, 112); plotting := false |}
                  false eq_refl)).
Defined.

(** X13.  Edge cases of the two differences.  For zero components the
    index [npeaks - 1] is -1 and wraps around: with a single entry the
    report is that entry minus itself, under the label (0, -1).  A list
    with no entry at [npeaks] raises [IndexError] before anything is
    reported. *)
Theorem bayes_factors_edges (report : Z -> Z -> R -> event) :
  (forall z, bayes_factors [z] 0 report
             = ([report 0 (-1) (z - z)%R], Ok tt))
  /\ (forall Zs n,
        0 <= n -> Z.of_nat (List.length Zs) <= n ->
        bayes_factors Zs n report = ([], Raise IndexError))
  /\ (forall Zs n,
        n < 0 -> Z.of_nat (List.length Zs) < - n ->
        bayes_factors Zs n report = ([], Raise IndexError)).
Proof.
  repeat split.
  - intros Zs n H0 Hl. unfold bayes_factors.
    rewrite index_missing by exact Hl. reflexivity.
  - intros Zs n H0 Hl. unfold bayes_factors.
    assert (E : Py.index Zs n = Raise IndexError).
    { unfold Py.index. destruct (n <? 0) eqn:Hn; [|lia].
      destruct (0 <=? n + Z.of_nat (List.length Zs)) eqn:H1; [lia|].
      reflexivity. }
    rewrite E. reflexivity.
Qed.

End LaterBlocks.


(** ** The cached baseline *)

Section Baseline.
Local Open Scope list_scope.
Variable w : World.

Lemma read_baseline_recomputes (e : event) :
  In e (trace (read_baseline w)) -> computes_baseline e = true ->
  exists x, fits_getdata w baseline_file = Raise x
            /\ catches_missing_file x = true.
Proof.
  unfold read_baseline.
  destruct (fits_getdata w baseline_file) as [g|x]; run_script.
  - simpl. intros [<-|[]]. discriminate.
  - destruct (catches_missing_file x) eqn:Hc; run_script; simpl.
    + intros _ _. now exists x.
    + intros [<-|[]]. discriminate.
Qed.

Opaque bayes_factors read_baseline.

Lemma later_blocks_no_baseline (a : Args) (fl : Flags)
  (bound : option (list R)) (e : event) :
  In e (trace (fit_block w a fl bound))
  \/ In e (trace (corner_block w a fl bound)) ->
  computes_baseline e = false.
Proof.
  unfold fit_block, corner_block. intros [H|H].
  - destruct (plot_fit fl); simpl_log H; [|easy].
    apply in_trace_bind in H as [H|(root & _ & H)]; simpl_log H; [easy|].
    destruct root; simpl_log H; [|easy].
    repeat (apply in_trace_bind in H as [H|(? & _ & H)]; simpl_log H);
      repeat match goal with
      | H : _ \/ _ |- _ => destruct H
      | H : False |- _ => destruct H
      end; subst; try reflexivity.
    + revert H. crunch; simpl; intros H;
        repeat match goal with
        | H : _ \/ _ |- _ => destruct H
        | H : False |- _ => destruct H
        end; subst; reflexivity.
    + destruct bound; simpl_log H; easy.
    + apply bayes_factors_events in H as (m & v & ->). reflexivity.
    + destruct (show_fit fl); simpl_log H;
        repeat match goal with
        | H : _ \/ _ |- _ => destruct H
        | H : False |- _ => destruct H
        end; subst; reflexivity.
  - destruct (plot_corner fl); simpl_log H; [|easy].
    apply in_trace_bind in H as [H|(root & _ & H)]; simpl_log H; [easy|].
    destruct root; simpl_log H; [|easy].
    repeat (apply in_trace_bind in H as [H|(? & _ & H)]; simpl_log H);
      repeat match goal with
      | H : _ \/ _ |- _ => destruct H
      | H : False |- _ => destruct H
      end; subst; try reflexivity.
    + destruct bound; simpl_log H; easy.
    + destruct (show_corner fl); simpl_log H;
        repeat match goal with
        | H : _ \/ _ |- _ => destruct H
        | H : False |- _ => destruct H
        end; subst; reflexivity.
Qed.

Lemma evidence_block_baseline (a : Args) (fl : Flags) (e : event) :
  In e (trace (evidence_block w a fl)) -> computes_baseline e = true ->
  In e (trace (read_baseline w)).
Proof.
  unfold evidence_block. intros H Hb.
  apply in_trace_bind in H as [H|(root & _ & H)]; simpl_log H; [easy|].
  destruct root, (plot_fit fl); simpl_log H; try easy.
  repeat (apply in_trace_bind in H as [H|(? & _ & H)]; simpl_log H);
    repeat match goal with
    | H : _ \/ _ |- _ => destruct H
    | H : False |- _ => destruct H
    end; subst; try discriminate; try assumption.
  apply bayes_factors_events in H as (m & v & ->). discriminate.
Qed.

Transparent bayes_factors read_baseline.

End Baseline.

Section BaselineCache.
Local Open Scope list_scope.

(** X14.  The cube is built and the zero-component evidence computed
    only on the coordinator, and only after reading the cached file has
    raised [FileNotFoundError] or [OSError]: a readable cache is never
    recomputed. *)
Theorem baseline_recomputed_only_when_missing (w : World) (e : event)
  (Hin : In e (trace (script w)))
  (Hkind : computes_baseline e = true) :
  i_am_root w = Ok true
  /\ exists x, fits_getdata w baseline_file = Raise x
               /\ catches_missing_file x = true.
Proof.
  apply script_events in Hin as [->|[->|(a & _ & H)]]; try discriminate.
  destruct H as [[-> _]|[[-> _]|[_ [[-> _]|[->|H]]]]]; try discriminate.
  pose proof (post_sampling_events w a _ e H) as (Hroot & _ & _).
  split; [exact Hroot|].
  unfold post_sampling in H.
  apply in_trace_bind in H as [H|(bound & _ & H)].
  - apply evidence_block_baseline in H; [|exact Hkind].
    now apply read_baseline_recomputes in H.
  - apply in_trace_bind in H as [H|(? & _ & H)].
    + rewrite (later_blocks_no_baseline w a _ bound e (or_introl H))
        in Hkind. discriminate.
    + rewrite (later_blocks_no_baseline w a _ bound e (or_intror H))
        in Hkind. discriminate.
Qed.

Lemma baseline_recomputed_only_when_missing_witness :
  i_am_root Demo.no_cache = Ok true
  /\ exists x, fits_getdata Demo.no_cache baseline_file = Raise x
               /\ catches_missing_file x = true.
Proof.
  apply (baseline_recomputed_only_when_missing Demo.no_cache MakeCubeShh);
    [|reflexivity].
  lazy -[IZR Rminus Rplus Rmult Rdiv Rinv Ropp sampling_efficiency].
  do 5 right. left. reflexivity.
Defined.

End BaselineCache.


(** ** Running the directory step again *)

Section DirectoryAgain.
Local Open Scope list_scope.



End DirectoryAgain.
